(** * KnowShowGo Python REST client: a shallow embedding of [client.py]

    The client is a thin wrapper: every method builds a payload, hands one
    request to the [requests] session and returns the decoded body or one of
    its fields.  The development has three layers:

    - [Py]: the Python values the client handles (what [json=] accepts and
      what [Response.json()] yields), truthiness, [or], subscripting and
      [str.rstrip];
    - [Requests]: the part of the [requests] library the client calls, with
      the remote service as a handler and the exchange as a state-and-error
      monad over the history of requests handed to the session;
    - [Client]: the class [KnowShowGoClient], method by method. *)

From Stdlib Require Import PrimFloat ZArith String Ascii List Bool Lia.
Import ListNotations.

Set Warnings "-inexact-float,-register-all".

Local Open Scope string_scope.
Local Open Scope Z_scope.

(* ===================================================================== *)
(** * Python values                                                       *)
(* ===================================================================== *)

Module Py.

(** The values that travel through the client: [None], booleans, integers,
    binary64 floats, strings, lists and string-keyed dictionaries.  A
    dictionary keeps its items in insertion order, as Python's does. *)
Inductive value : Type :=
| VNone
| VBool (b : bool)
| VInt (n : Z)
| VFloat (f : float)
| VStr (s : string)
| VList (l : list value)
| VDict (d : list (string * value)).

Definition dict : Type := list (string * value).

(** A parameter with a default value: the caller leaves it out or gives it. *)
Inductive kwarg (A : Type) : Type :=
| omitted
| given (a : A).

Arguments omitted {A}.
Arguments given {A} a.

Definition default {A : Type} (d : A) (k : kwarg A) : A :=
  match k with
  | omitted => d
  | given a => a
  end.

(** [Optional[T]]: [None] or a [T]. *)
Definition of_optional {A : Type} (inj : A -> value) (o : option A) : value :=
  match o with
  | None => VNone
  | Some a => inj a
  end.

(** [List[T]]. *)
Definition of_list {A : Type} (inj : A -> value) (l : list A) : value :=
  VList (map inj l).

(** [bool(v)]: Python's truth value. *)
Definition truthy (v : value) : bool :=
  match v with
  | VNone => false
  | VBool b => b
  | VInt n => negb (n =? 0)
  | VFloat f => negb (PrimFloat.eqb f 0%float)
  | VStr s => negb (String.eqb s "")
  | VList l => match l with [] => false | _ :: _ => true end
  | VDict d => match d with [] => false | _ :: _ => true end
  end.

(** [a or b]. *)
Definition py_or (a b : value) : value :=
  if truthy a then a else b.

(** [key in d] followed by [d[key]], on the items of a dictionary. *)
Fixpoint dict_get (d : dict) (key : string) : option value :=
  match d with
  | [] => None
  | (k, v) :: rest => if String.eqb k key then Some v else dict_get rest key
  end.

(** [c in chars]. *)
Fixpoint char_in (c : ascii) (chars : string) : bool :=
  match chars with
  | EmptyString => false
  | String a rest => Ascii.eqb a c || char_in c rest
  end.

(** [s.rstrip(chars)]: drop the longest suffix made of characters of
    [chars]. *)
Fixpoint rstrip (chars s : string) : string :=
  match s with
  | EmptyString => EmptyString
  | String a rest =>
      match rstrip chars rest with
      | EmptyString => if char_in a chars then EmptyString else String a EmptyString
      | kept => String a kept
      end
  end.

(** [n] copies of the character [c]. *)
Fixpoint replicate (n : nat) (c : ascii) : string :=
  match n with
  | O => EmptyString
  | S m => String c (replicate m c)
  end.

End Py.

(* ===================================================================== *)
(** * The [requests] library, as far as the client uses it                *)
(* ===================================================================== *)

Module Requests.
Import Py.

(** The keyword arguments the client passes on to [Session.request]. *)
Record Kwargs : Type := mkKwargs {
  kw_params : option value;
  kw_json : option value
}.

Definition no_kwargs : Kwargs := mkKwargs None None.
Definition json_kwarg (data : value) : Kwargs := mkKwargs None (Some data).
Definition params_kwarg (p : value) : Kwargs := mkKwargs (Some p) None.

(** One call of [Session.request(method, url, **kwargs)]. *)
Record Request : Type := mkRequest {
  req_method : string;
  req_url : string;
  req_params : option value;
  req_json : option value
}.

(** A response body either decodes as JSON to a value or does not. *)
Inductive Body : Type :=
| JSONText (v : value)
| OtherText (raw : string).

Record Response : Type := mkResponse {
  status_code : Z;
  reason : string;
  content : Body
}.

Inductive Exception : Type :=
| ConnectionError (msg : string)
| ReadTimeout
| HTTPError (response : Response)
| JSONDecodeError
| KeyError (key : string)
| TypeError.

(** [e.response.status_code], for the exceptions that carry a response. *)
Definition carried_status (e : Exception) : option Z :=
  match e with
  | HTTPError response => Some (status_code response)
  | _ => None
  end.

Inductive Result (A : Type) : Type :=
| Return (a : A)
| Raise (e : Exception).

Arguments Return {A} a.
Arguments Raise {A} e.

(** The requests handed to the session so far, oldest first. *)
Definition History : Type := list Request.

(** A session stands for the connection to the remote service: given what
    was sent before and the request at hand, the exchange yields a response
    or fails in transport. *)
Record Session : Type := mkSession {
  respond : History -> Request -> Result Response
}.

(** Computations that may raise and that record what they send. *)
Definition M (A : Type) : Type := History -> Result A * History.

Definition ret {A : Type} (a : A) : M A := fun h => (Return a, h).

Definition raise {A : Type} (e : Exception) : M A := fun h => (Raise e, h).

Definition bind {A B : Type} (c : M A) (k : A -> M B) : M B :=
  fun h =>
    match c h with
    | (Return a, h') => k a h'
    | (Raise e, h') => (Raise e, h')
    end.

Notation "x <- c ;; k" := (bind c (fun x => k))
  (at level 61, c at next level, right associativity).
Notation "c ;;; k" := (bind c (fun _ => k))
  (at level 61, right associativity).

Definition outcome {A : Type} (c : M A) (h : History) : Result A := fst (c h).
Definition sent {A : Type} (c : M A) (h : History) : History := snd (c h).

(** [session.request(method, url, **kwargs)]. *)
Definition request (s : Session) (method url : string) (kwargs : Kwargs)
  : M Response :=
  fun h =>
    let r := mkRequest method url (kw_params kwargs) (kw_json kwargs) in
    (respond s h r, (h ++ [r])%list).

(** Modelled from the spec: the status test of [Response.raise_for_status],
    which belongs to the [requests] library and not to the repository: a
    client error (4xx) or a server error (5xx). *)
Definition is_error_status (code : Z) : bool :=
  (400 <=? code) && (code <? 600).

(** Modelled from the spec: [Response.raise_for_status], of the [requests]
    library.  It raises [HTTPError], carrying the response, when the status
    is a client or server error, and does nothing otherwise. *)
Definition raise_for_status (response : Response) : M unit :=
  if is_error_status (status_code response)
  then raise (HTTPError response)
  else ret tt.

(** Modelled from the spec: [Response.json], of the [requests] library.  It
    returns the decoded body, and raises when the body is not valid JSON. *)
Definition json (response : Response) : M value :=
  match content response with
  | JSONText v => ret v
  | OtherText _ => raise JSONDecodeError
  end.

(** [obj[key]] with a string key: a dictionary yields the item or raises
    [KeyError]; no other value of [value] accepts a string subscript. *)
Definition subscript (obj : value) (key : string) : M value :=
  match obj with
  | VDict d =>
      match dict_get d key with
      | Some v => ret v
      | None => raise (KeyError key)
      end
  | _ => raise TypeError
  end.

End Requests.

(* ===================================================================== *)
(** * [class KnowShowGoClient]                                            *)
(* ===================================================================== *)

Module Client.
Import Py Requests.

Record KnowShowGoClient : Type := mkClient {
  base_url : string;
  session : Session
}.

(** [__init__(self, base_url="http://localhost:3000")].  [requests.Session()]
    opens the connection; the model receives it as [connection]. *)
Definition __init__ (connection : Session) (base_url : kwarg string)
  : KnowShowGoClient :=
  let base_url := default "http://localhost:3000" base_url in
  {| base_url := rstrip "/" base_url;
     session := connection |}.

(** [_request(self, method, endpoint, **kwargs)]. *)
Definition _request (self : KnowShowGoClient) (method endpoint : string)
  (kwargs : Kwargs) : M value :=
  let url := base_url self ++ endpoint in
  response <- request (session self) method url kwargs ;;
  raise_for_status response ;;;
  json response.

(** ** Prototype methods *)

Definition create_prototype (self : KnowShowGoClient) (name : string)
  (description context : kwarg (option string))
  (labels : kwarg (option (list string)))
  (embedding : kwarg (option (list float)))
  (parent_prototype_uuids : kwarg (option (list string))) : M value :=
  let description := default None description in
  let context := default None context in
  let labels := default None labels in
  let embedding := default None embedding in
  let parent_prototype_uuids := default None parent_prototype_uuids in
  let data := VDict [
    ("name", VStr name);
    ("description", of_optional VStr description);
    ("context", of_optional VStr context);
    ("labels", py_or (of_optional (of_list VStr) labels) (VList []));
    ("embedding", of_optional (of_list VFloat) embedding);
    ("parentPrototypeUuids", of_optional (of_list VStr) parent_prototype_uuids)
  ] in
  result <- _request self "POST" "/api/prototypes" (json_kwarg data) ;;
  subscript result "uuid".

Definition get_prototype (self : KnowShowGoClient) (uuid : string) : M value :=
  _request self "GET" ("/api/prototypes/" ++ uuid) no_kwargs.

(** ** Concept methods *)

Definition create_concept (self : KnowShowGoClient) (prototype_uuid : string)
  (json_obj : dict)
  (embedding : kwarg (option (list float)))
  (previous_version_uuid : kwarg (option string)) : M value :=
  let embedding := default None embedding in
  let previous_version_uuid := default None previous_version_uuid in
  let data := VDict [
    ("prototypeUuid", VStr prototype_uuid);
    ("jsonObj", VDict json_obj);
    ("embedding", of_optional (of_list VFloat) embedding);
    ("previousVersionUuid", of_optional VStr previous_version_uuid)
  ] in
  result <- _request self "POST" "/api/concepts" (json_kwarg data) ;;
  subscript result "uuid".

Definition get_concept (self : KnowShowGoClient) (uuid : string) : M value :=
  _request self "GET" ("/api/concepts/" ++ uuid) no_kwargs.

Definition search_concepts (self : KnowShowGoClient) (query : string)
  (top_k : kwarg Z) (similarity_threshold : kwarg float)
  (prototype_filter : kwarg (option string)) : M value :=
  let top_k := default 10 top_k in
  let similarity_threshold := default 0.7%float similarity_threshold in
  let prototype_filter := default None prototype_filter in
  let data := VDict [
    ("query", VStr query);
    ("topK", VInt top_k);
    ("similarityThreshold", VFloat similarity_threshold);
    ("prototypeFilter", of_optional VStr prototype_filter)
  ] in
  result <- _request self "POST" "/api/concepts/search" (json_kwarg data) ;;
  subscript result "results".

(** ** Association methods *)

Definition add_association (self : KnowShowGoClient)
  (from_concept_uuid to_concept_uuid relation_type : string)
  (strength : kwarg float) : M value :=
  let strength := default 1.0%float strength in
  let data := VDict [
    ("fromConceptUuid", VStr from_concept_uuid);
    ("toConceptUuid", VStr to_concept_uuid);
    ("relationType", VStr relation_type);
    ("strength", VFloat strength)
  ] in
  _request self "POST" "/api/associations" (json_kwarg data) ;;;
  ret VNone.

Definition get_associations (self : KnowShowGoClient) (uuid : string)
  (direction : kwarg string) : M value :=
  let direction := default "both" direction in
  result <- _request self "GET" ("/api/associations/" ++ uuid)
              (params_kwarg (VDict [("direction", VStr direction)])) ;;
  subscript result "associations".

(** ** Node with document methods *)

Definition create_node_with_document (self : KnowShowGoClient) (label : string)
  (summary : kwarg (option string))
  (tags : kwarg (option (list string)))
  (metadata : kwarg (option dict))
  (associations : kwarg (option (list dict)))
  (prototype_uuid : kwarg (option string)) : M value :=
  let summary := default None summary in
  let tags := default None tags in
  let metadata := default None metadata in
  let associations := default None associations in
  let prototype_uuid := default None prototype_uuid in
  let data := VDict [
    ("label", VStr label);
    ("summary", of_optional VStr summary);
    ("tags", py_or (of_optional (of_list VStr) tags) (VList []));
    ("metadata", py_or (of_optional VDict metadata) (VDict []));
    ("associations", py_or (of_optional (of_list VDict) associations) (VList []));
    ("prototypeUuid", of_optional VStr prototype_uuid)
  ] in
  result <- _request self "POST" "/api/nodes" (json_kwarg data) ;;
  subscript result "uuid".

Definition update_node_embedding (self : KnowShowGoClient) (uuid : string)
  : M value :=
  _request self "POST" ("/api/nodes/" ++ uuid ++ "/embedding") no_kwargs ;;;
  ret VNone.

(** ** ORM methods *)

Definition register_prototype (self : KnowShowGoClient)
  (prototype_name : string) (options : kwarg (option dict)) : M value :=
  let options := default None options in
  let data := VDict [
    ("prototypeName", VStr prototype_name);
    ("options", py_or (of_optional VDict options) (VDict []))
  ] in
  _request self "POST" "/api/orm/register" (json_kwarg data) ;;;
  ret VNone.

Definition create_instance (self : KnowShowGoClient) (prototype_name : string)
  (properties : dict) : M value :=
  let data := VDict [("properties", VDict properties)] in
  _request self "POST" ("/api/orm/" ++ prototype_name ++ "/create")
    (json_kwarg data).

Definition get_instance (self : KnowShowGoClient) (prototype_name uuid : string)
  : M value :=
  _request self "GET" ("/api/orm/" ++ prototype_name ++ "/" ++ uuid) no_kwargs.

(** ** Health check *)

Definition health_check (self : KnowShowGoClient) : M value :=
  _request self "GET" "/health" no_kwargs.

(** ** The public methods as data

    One constructor per public method, with the method's arguments, so
    that a statement can range over every call of the client. *)

Inductive Call : Type :=
| CreatePrototype (name : string) (description context : kwarg (option string))
    (labels : kwarg (option (list string)))
    (embedding : kwarg (option (list float)))
    (parent_prototype_uuids : kwarg (option (list string)))
| GetPrototype (uuid : string)
| CreateConcept (prototype_uuid : string) (json_obj : dict)
    (embedding : kwarg (option (list float)))
    (previous_version_uuid : kwarg (option string))
| GetConcept (uuid : string)
| SearchConcepts (query : string) (top_k : kwarg Z)
    (similarity_threshold : kwarg float)
    (prototype_filter : kwarg (option string))
| AddAssociation (from_concept_uuid to_concept_uuid relation_type : string)
    (strength : kwarg float)
| GetAssociations (uuid : string) (direction : kwarg string)
| CreateNodeWithDocument (label : string) (summary : kwarg (option string))
    (tags : kwarg (option (list string))) (metadata : kwarg (option dict))
    (associations : kwarg (option (list dict)))
    (prototype_uuid : kwarg (option string))
| UpdateNodeEmbedding (uuid : string)
| RegisterPrototype (prototype_name : string) (options : kwarg (option dict))
| CreateInstance (prototype_name : string) (properties : dict)
| GetInstance (prototype_name uuid : string)
| HealthCheck.

Definition invoke (self : KnowShowGoClient) (call : Call) : M value :=
  match call with
  | CreatePrototype name description context labels embedding parents =>
      create_prototype self name description context labels embedding parents
  | GetPrototype uuid => get_prototype self uuid
  | CreateConcept prototype_uuid json_obj embedding previous =>
      create_concept self prototype_uuid json_obj embedding previous
  | GetConcept uuid => get_concept self uuid
  | SearchConcepts query top_k threshold filter =>
      search_concepts self query top_k threshold filter
  | AddAssociation a b relation_type strength =>
      add_association self a b relation_type strength
  | GetAssociations uuid direction => get_associations self uuid direction
  | CreateNodeWithDocument label summary tags metadata associations proto =>
      create_node_with_document self label summary tags metadata associations
        proto
  | UpdateNodeEmbedding uuid => update_node_embedding self uuid
  | RegisterPrototype prototype_name options =>
      register_prototype self prototype_name options
  | CreateInstance prototype_name properties =>
      create_instance self prototype_name properties
  | GetInstance prototype_name uuid => get_instance self prototype_name uuid
  | HealthCheck => health_check self
  end.

End Client.

(* ===================================================================== *)
(** * The wire contract as the specification tabulates it                 *)
(* ===================================================================== *)

Module Wire.
Import Py Requests Client.

(** The HTTP method and the path of each operation, from the table of
    external interfaces of the specification (not from the code). *)
Definition spec_route (call : Call) : string * string :=
  match call with
  | CreatePrototype _ _ _ _ _ _ => ("POST", "/api/prototypes")
  | GetPrototype uuid => ("GET", "/api/prototypes/" ++ uuid)
  | CreateConcept _ _ _ _ => ("POST", "/api/concepts")
  | GetConcept uuid => ("GET", "/api/concepts/" ++ uuid)
  | SearchConcepts _ _ _ _ => ("POST", "/api/concepts/search")
  | AddAssociation _ _ _ _ => ("POST", "/api/associations")
  | GetAssociations uuid _ => ("GET", "/api/associations/" ++ uuid)
  | CreateNodeWithDocument _ _ _ _ _ _ => ("POST", "/api/nodes")
  | UpdateNodeEmbedding uuid => ("POST", "/api/nodes/" ++ uuid ++ "/embedding")
  | RegisterPrototype _ _ => ("POST", "/api/orm/register")
  | CreateInstance name _ => ("POST", "/api/orm/" ++ name ++ "/create")
  | GetInstance name uuid => ("GET", "/api/orm/" ++ name ++ "/" ++ uuid)
  | HealthCheck => ("GET", "/health")
  end.

(** A status that indicates a client or server error. *)
Definition client_or_server_error (code : Z) : Prop := 400 <= code < 600.

(** The exchange of the call [c], started after the history [h], succeeds
    in transport: [c] hands one request to the session of [self] and the
    service answers [response] to it. *)
Definition answered (self : KnowShowGoClient) (c : M value) (h : History)
  (response : Response) : Prop :=
  exists r,
    sent c h = (h ++ [r])%list
    /\ respond (session self) h r = Return response.

(** The two shapes of request the client issues. *)
Definition POST (self : KnowShowGoClient) (endpoint : string)
  (body : option value) : Request :=
  mkRequest "POST" (base_url self ++ endpoint) None body.

Definition GET (self : KnowShowGoClient) (endpoint : string)
  (query : option value) : Request :=
  mkRequest "GET" (base_url self ++ endpoint) query None.

(** What one run of [_request] does: a single request goes out, and the
    result is read off the answer to it. *)
Definition interpret (answer : Result Response) : Result value :=
  match answer with
  | Raise e => Raise e
  | Return response =>
      if is_error_status (status_code response) then Raise (HTTPError response)
      else match content response with
           | JSONText v => Return v
           | OtherText _ => Raise JSONDecodeError
           end
  end.

(** A canned service for concrete runs: it answers the same response to
    every request. *)
Definition canned (response : Response) : Session :=
  mkSession (fun _ _ => Return response).

(** A client with the default base URL, talking to a canned service. *)
Definition canned_client (response : Response) : KnowShowGoClient :=
  __init__ (canned response) omitted.

(** Sample answers of the service. *)
Definition created (uuid : string) : Response :=
  mkResponse 201 "Created" (JSONText (VDict [("uuid", VStr uuid)])).

Definition found (body : dict) : Response :=
  mkResponse 200 "OK" (JSONText (VDict body)).

Definition not_found : Response :=
  mkResponse 404 "Not Found" (JSONText (VDict [("error", VStr "not found")])).

Definition no_content : Response :=
  mkResponse 204 "No Content" (OtherText "").

End Wire.

(* ===================================================================== *)
(** * Transport failures                                                  *)
(* ===================================================================== *)

Module Faults.
Import Py Requests Client.

(** The exchange of the call [c], started after the history [h], fails in
    transport: [c] hands one request to the session of [self] and
    [session.request] raises [e] on it. *)
Definition refused (self : KnowShowGoClient) (c : M value) (h : History)
  (e : Exception) : Prop :=
  exists r,
    sent c h = (h ++ [r])%list
    /\ respond (session self) h r = Raise e.

(** A connection on which every request fails with [e]. *)
Definition broken (e : Exception) : Session :=
  mkSession (fun _ _ => Raise e).

End Faults.

(* ===================================================================== *)
(** * The example script under [if __name__ == "__main__"]                *)
(* ===================================================================== *)

Module Script.
Import Py Requests Client.

(** A piece of a printed line: literal text, or [str(v)] of a value, which
    is kept as it is and not rendered. *)
Inductive Piece : Type :=
| Text (s : string)
| Str (v : value).

Definition Line : Type := list Piece.

(** What the script acts on: the requests handed to the session and the
    lines written to standard output. *)
Record World : Type := mkWorld {
  wire : History;
  stdout : list Line
}.

Definition IO (A : Type) : Type := World -> Result A * World.

Definition io_ret {A : Type} (a : A) : IO A := fun w => (Return a, w).

Definition io_raise {A : Type} (e : Exception) : IO A :=
  fun w => (Raise e, w).

Definition io_bind {A B : Type} (c : IO A) (k : A -> IO B) : IO B :=
  fun w =>
    match c w with
    | (Return a, w') => k a w'
    | (Raise e, w') => (Raise e, w')
    end.

Notation "x <~ c ;; k" := (io_bind c (fun x => k))
  (at level 61, c at next level, right associativity).
Notation "c ~;; k" := (io_bind c (fun _ => k))
  (at level 61, right associativity).

(** A call of the client inside the script: it touches the wire only. *)
Definition lift {A : Type} (c : M A) : IO A :=
  fun w =>
    match c (wire w) with
    | (result, h') => (result, mkWorld h' (stdout w))
    end.

(** [print(...)]: one more line on standard output. *)
Definition print (line : Line) : IO unit :=
  fun w => (Return tt, mkWorld (wire w) (stdout w ++ [line])%list).

(** A string holds its text in UTF-8.  A byte of the form [10xxxxxx]
    continues a character begun by an earlier byte. *)
Definition is_continuation (c : ascii) : bool :=
  match c with
  | Ascii _ _ _ _ _ _ b6 b7 => b7 && negb b6
  end.

(** The number of characters (code points) of a string: the bytes that do
    not continue a character. *)
Fixpoint code_points (s : string) : nat :=
  match s with
  | EmptyString => O
  | String c rest =>
      if is_continuation c then code_points rest else S (code_points rest)
  end.

(** [len(v)]: defined on strings (their number of characters), lists and
    dictionaries; the other values have no length. *)
Definition len (v : value) : IO Z :=
  match v with
  | VStr s => io_ret (Z.of_nat (code_points s))
  | VList l => io_ret (Z.of_nat (List.length l))
  | VDict d => io_ret (Z.of_nat (List.length d))
  | _ => io_raise TypeError
  end.

(** [create_concept] as Python runs it, where the annotation [str] of
    [prototype_uuid] is not enforced: the script passes on whatever
    [create_prototype] returned. *)
Definition create_concept_dyn (self : KnowShowGoClient)
  (prototype_uuid : value) (json_obj : dict)
  (embedding : kwarg (option (list float)))
  (previous_version_uuid : kwarg (option string)) : M value :=
  let embedding := default None embedding in
  let previous_version_uuid := default None previous_version_uuid in
  let data := VDict [
    ("prototypeUuid", prototype_uuid);
    ("jsonObj", VDict json_obj);
    ("embedding", of_optional (of_list VFloat) embedding);
    ("previousVersionUuid", of_optional VStr previous_version_uuid)
  ] in
  result <- _request self "POST" "/api/concepts" (json_kwarg data) ;;
  subscript result "uuid".

(** The script: [KnowShowGoClient()] opens the connection, here
    [connection]. *)
Definition main (connection : Session) : IO unit :=
  let client := __init__ connection omitted in
  health <~ lift (health_check client) ;;
  print [Text "Health:"; Text " "; Str health] ~;;
  proto_uuid <~ lift (create_prototype client "Person"
                        (given (Some "A human individual")) omitted
                        (given (Some ["person"; "human"])) omitted omitted) ;;
  print [Text "Created prototype: "; Str proto_uuid] ~;;
  concept_uuid <~ lift (create_concept_dyn client proto_uuid
                          [("name", VStr "John Doe");
                           ("email", VStr "john@example.com")]
                          omitted omitted) ;;
  print [Text "Created concept: "; Str concept_uuid] ~;;
  results <~ lift (search_concepts client "person named John" (given 5)
                     omitted omitted) ;;
  count <~ len results ;;
  print [Text "Search results: "; Str (VInt count); Text " found"].

(** The method and URL of the four requests of the script, in order. *)
Definition script_routes : list (string * string) :=
  [("GET", "http://localhost:3000/health");
   ("POST", "http://localhost:3000/api/prototypes");
   ("POST", "http://localhost:3000/api/concepts");
   ("POST", "http://localhost:3000/api/concepts/search")].

Definition route_of (r : Request) : string * string :=
  (req_method r, req_url r).

(** A service for concrete runs of the script: it tells the requests apart
    by URL. *)
Definition demo_service : Session :=
  mkSession (fun _ r =>
    if String.eqb (req_url r) "http://localhost:3000/health"
    then Return (mkResponse 200 "OK" (JSONText (VDict [("status", VStr "ok")])))
    else if String.eqb (req_url r) "http://localhost:3000/api/prototypes"
    then Return (mkResponse 201 "Created" (JSONText (VDict [("uuid", VStr "p-1")])))
    else if String.eqb (req_url r) "http://localhost:3000/api/concepts"
    then Return (mkResponse 201 "Created" (JSONText (VDict [("uuid", VStr "c-1")])))
    else if String.eqb (req_url r) "http://localhost:3000/api/concepts/search"
    then Return (mkResponse 200 "OK" (JSONText (VDict [("results", VList [])])))
    else Return (mkResponse 404 "Not Found" (OtherText ""))).

Definition blank : World := mkWorld [] [].

End Script.

Import Py Requests Client Wire Faults Script.

(* ===================================================================== *)
(** * Concrete runs                                                       *)
(* ===================================================================== *)

Example rstrip_one_slash :
  rstrip "/" "http://localhost:3000/" = "http://localhost:3000".
Proof. reflexivity. Qed.

Example rstrip_several_slashes :
  rstrip "/" "http://api.example//" = "http://api.example".
Proof. reflexivity. Qed.

Example rstrip_inner_slashes_stay :
  rstrip "/" "http://api.example/v1" = "http://api.example/v1".
Proof. reflexivity. Qed.

Example or_keeps_a_filled_list :
  py_or (of_optional (of_list VStr) (Some ["person"])) (VList [])
  = VList [VStr "person"].
Proof. reflexivity. Qed.

Example or_replaces_none :
  py_or (of_optional (of_list VStr) None) (VList []) = VList [].
Proof. reflexivity. Qed.

Example create_prototype_run :
  create_prototype (canned_client (created "p-1")) "Person"
    (given (Some "A human individual")) omitted
    (given (Some ["person"; "human"])) omitted omitted []
  = (Return (VStr "p-1"),
     [mkRequest "POST" "http://localhost:3000/api/prototypes" None
        (Some (VDict [("name", VStr "Person");
                      ("description", VStr "A human individual");
                      ("context", VNone);
                      ("labels", VList [VStr "person"; VStr "human"]);
                      ("embedding", VNone);
                      ("parentPrototypeUuids", VNone)]))]).
Proof. reflexivity. Qed.

Example create_concept_without_uuid_in_reply :
  outcome (create_concept (canned_client (found [("id", VStr "c-1")])) "p-1"
             [("name", VStr "John Doe")] omitted omitted) []
  = Raise (KeyError "uuid").
Proof. reflexivity. Qed.

Example get_concept_not_found :
  get_concept (canned_client not_found) "c-9" []
  = (Raise (HTTPError not_found),
     [mkRequest "GET" "http://localhost:3000/api/concepts/c-9" None None]).
Proof. reflexivity. Qed.

Example add_association_run :
  add_association (canned_client (found [])) "c-1" "c-2" "relatesTo" omitted []
  = (Return VNone,
     [mkRequest "POST" "http://localhost:3000/api/associations" None
        (Some (VDict [("fromConceptUuid", VStr "c-1");
                      ("toConceptUuid", VStr "c-2");
                      ("relationType", VStr "relatesTo");
                      ("strength", VFloat 1.0)]))]).
Proof. reflexivity. Qed.

(* ===================================================================== *)
(** * The request primitive                                               *)
(* ===================================================================== *)

Lemma is_error_status_iff (code : Z) :
  is_error_status code = true <-> client_or_server_error code.
Proof.
  unfold is_error_status, client_or_server_error.
  rewrite andb_true_iff, Z.leb_le, Z.ltb_lt. tauto.
Qed.

Lemma is_error_status_false (code : Z) :
  ~ client_or_server_error code -> is_error_status code = false.
Proof.
  intros H. destruct (is_error_status code) eqn:E; [|reflexivity].
  apply is_error_status_iff in E. contradiction.
Qed.

Lemma interpret_json (response : Response) (v : value) :
  ~ client_or_server_error (status_code response) ->
  content response = JSONText v ->
  interpret (Return response) = Return v.
Proof.
  intros Hok Hc. unfold interpret.
  rewrite (is_error_status_false _ Hok), Hc. reflexivity.
Qed.

Lemma interpret_error (response : Response) :
  client_or_server_error (status_code response) ->
  interpret (Return response) = Raise (HTTPError response).
Proof.
  intros He. unfold interpret.
  apply is_error_status_iff in He. rewrite He. reflexivity.
Qed.

Lemma interpret_not_json (response : Response) (raw : string) :
  ~ client_or_server_error (status_code response) ->
  content response = OtherText raw ->
  interpret (Return response) = Raise JSONDecodeError.
Proof.
  intros Hok Hc. unfold interpret.
  rewrite (is_error_status_false _ Hok), Hc. reflexivity.
Qed.

(** One run of [_request]: a single request goes out, and the result is
    read off the answer to it. *)
Lemma _request_run (self : KnowShowGoClient) (method endpoint : string)
  (kwargs : Kwargs) (h : History) :
  _request self method endpoint kwargs h
  = (interpret
       (respond (session self) h
          (mkRequest method (base_url self ++ endpoint)
             (kw_params kwargs) (kw_json kwargs))),
     (h ++ [mkRequest method (base_url self ++ endpoint)
              (kw_params kwargs) (kw_json kwargs)])%list).
Proof.
  unfold _request, bind, request, raise_for_status, json, interpret; simpl.
  destruct (respond (session self) h _) as [response|e]; [|reflexivity].
  destruct (is_error_status (status_code response)); [reflexivity|].
  unfold ret; simpl. destruct (content response); reflexivity.
Qed.

Lemma sent_request (self : KnowShowGoClient) (method endpoint : string)
  (kwargs : Kwargs) (h : History) :
  sent (_request self method endpoint kwargs) h
  = (h ++ [mkRequest method (base_url self ++ endpoint)
             (kw_params kwargs) (kw_json kwargs)])%list.
Proof.
  unfold sent. rewrite _request_run. reflexivity.
Qed.

Lemma outcome_request (self : KnowShowGoClient) (method endpoint : string)
  (kwargs : Kwargs) (h : History) :
  outcome (_request self method endpoint kwargs) h
  = interpret (respond (session self) h
                 (mkRequest method (base_url self ++ endpoint)
                    (kw_params kwargs) (kw_json kwargs))).
Proof.
  unfold outcome. rewrite _request_run. reflexivity.
Qed.

Lemma outcome_request_answered (self : KnowShowGoClient)
  (method endpoint : string) (kwargs : Kwargs) (h : History)
  (response : Response) :
  respond (session self) h
    (mkRequest method (base_url self ++ endpoint)
       (kw_params kwargs) (kw_json kwargs)) = Return response ->
  outcome (_request self method endpoint kwargs) h
  = interpret (Return response).
Proof.
  intros Hr. rewrite outcome_request, Hr. reflexivity.
Qed.

(** ** Sequencing *)

Lemma subscript_sends_nothing (obj : value) (key : string) (h : History) :
  snd (subscript obj key h) = h.
Proof.
  destruct obj; try reflexivity.
  simpl. destruct (dict_get d key); reflexivity.
Qed.

Lemma sent_bind {A B : Type} (c : M A) (k : A -> M B) (h : History) :
  (forall a h', snd (k a h') = h') ->
  sent (bind c k) h = sent c h.
Proof.
  intros Hk. unfold sent, bind.
  destruct (c h) as [[a|e] h']; [apply Hk | reflexivity].
Qed.

Lemma outcome_bind {A B : Type} (c : M A) (k : A -> M B) (h : History) :
  outcome (bind c k) h
  = match outcome c h with
    | Return a => outcome (k a) (sent c h)
    | Raise e => Raise e
    end.
Proof.
  unfold outcome, sent, bind.
  destruct (c h) as [[a|e] h']; reflexivity.
Qed.

Lemma run_is_outcome_and_sent {A : Type} (c : M A) (h : History) :
  c h = (outcome c h, sent c h).
Proof.
  unfold outcome, sent. destruct (c h); reflexivity.
Qed.

(** If a call sends [r0] and its exchange is answered, the answer is the
    answer to [r0]. *)
Lemma answered_inv (self : KnowShowGoClient) (c : M value) (h : History)
  (r0 : Request) (response : Response) :
  sent c h = (h ++ [r0])%list ->
  answered self c h response ->
  respond (session self) h r0 = Return response.
Proof.
  intros Hsent (r & Hr & Ha). rewrite Hsent in Hr.
  apply app_inj_tail in Hr. destruct Hr as [_ Hr]. now subst r.
Qed.

(** [x or []] on a list parameter: the list passed, or the empty list when
    the parameter was left out or passed as [None]. *)
Lemma or_empty_list {A : Type} (inj : A -> value) (k : kwarg (option (list A))) :
  py_or (of_optional (of_list inj) (default None k)) (VList [])
  = VList (map inj (match k with given (Some l) => l | _ => [] end)).
Proof.
  destruct k as [|[l|]]; try reflexivity.
  destruct l; reflexivity.
Qed.

Lemma or_empty_dict (k : kwarg (option dict)) :
  py_or (of_optional VDict (default None k)) (VDict [])
  = VDict (match k with given (Some d) => d | _ => [] end).
Proof.
  destruct k as [|[d|]]; try reflexivity.
  destruct d; reflexivity.
Qed.

Ltac unfold_methods :=
  unfold invoke,
    create_prototype, get_prototype, create_concept, get_concept,
    search_concepts, add_association, get_associations,
    create_node_with_document, update_node_embedding, register_prototype,
    create_instance, get_instance, health_check.

(** Reduce what a method sends to what its single [_request] sends. *)
Ltac one_request :=
  unfold_methods;
  rewrite ?sent_bind
    by (intros; first [apply subscript_sends_nothing | reflexivity]);
  rewrite sent_request.

(** Replace the outcome of the primitive in the goal by the one [Ho] states,
    up to unfolding of the request's parts. *)
Ltac answer_with Ho :=
  match type of Ho with
  | ?lhs = _ =>
      match goal with
      | |- context [outcome (_request ?s ?m ?e ?k) ?h] =>
          change (outcome (_request s m e k) h) with lhs
      end
  end;
  rewrite Ho.

(** From [Ha : answered self (method ...) h response], rewrite the outcome
    of the method's [_request] to the reading of [response]. *)
Ltac exchange Ha :=
  eapply answered_inv in Ha; [|one_request; reflexivity];
  apply outcome_request_answered in Ha;
  unfold_methods; rewrite ?outcome_bind; answer_with Ha.

(** Close [sent (method ...) h = h ++ [r]] for the request [r] of the
    method. *)
Ltac pinned :=
  one_request; rewrite ?or_empty_list, ?or_empty_dict; reflexivity.

(** With [Hr : respond (session self) h r = Return response] for the request
    [r] the method sends, rewrite the outcome of the method's [_request] to
    the reading of [response]. *)
Ltac answered_by Hr :=
  match type of Hr with
  | respond (session ?s) ?h ?r = Return ?resp =>
      match goal with
      | |- outcome ?c h = _ =>
          let Ha := fresh "Ha" in
          assert (Ha : answered s c h resp)
            by (exists r; split; [pinned | exact Hr]);
          exchange Ha
      end
  end.

(** Settle a conjunction of per-method statements: the pinned request of
    each method, and its outcome under the answer [Hr] to that request,
    finished by [tac]. *)
Ltac per_method tac :=
  repeat split; intros;
  first [ pinned
        | match goal with
          | Hr : respond _ _ _ = _ |- _ => answered_by Hr; tac
          end ].

(** Every call hands exactly one request to the session, whatever the
    service answers: the one the specification tabulates for it. *)
Lemma invoke_sends_route (self : KnowShowGoClient) (call : Call) (h : History) :
  exists r,
    sent (invoke self call) h = (h ++ [r])%list
    /\ req_method r = fst (spec_route call)
    /\ req_url r = base_url self ++ snd (spec_route call).
Proof.
  destruct call; one_request; eexists; repeat split.
Qed.

(* ===================================================================== *)
(** * Results of the methods                                              *)
(* ===================================================================== *)

(** C1: each create-style method ([create_prototype], [create_concept],
    [create_node_with_document]) hands the session its one request, and
    when the answer to that request has a status that is no error and
    decodes to a mapping whose field "uuid" holds [X], the method returns
    exactly [X]. *)
Theorem create_methods_return_uuid (self : KnowShowGoClient) (h : History)
  (response : Response) (reply : dict) (X : value) :
  ~ client_or_server_error (status_code response) ->
  content response = JSONText (VDict reply) ->
  dict_get reply "uuid" = Some X ->
  (forall name description context labels embedding parents,
     let r :=
       POST self "/api/prototypes"
         (Some (VDict [
            ("name", VStr name);
            ("description", of_optional VStr (default None description));
            ("context", of_optional VStr (default None context));
            ("labels", VList (map VStr match labels with
                                       | given (Some l) => l
                                       | _ => []
                                       end));
            ("embedding",
             of_optional (of_list VFloat) (default None embedding));
            ("parentPrototypeUuids",
             of_optional (of_list VStr) (default None parents))])) in
     sent (create_prototype self name description context labels
                  embedding parents) h
     = (h ++ [r])%list
     /\ (respond (session self) h r = Return response ->
         outcome (create_prototype self name description context labels
                  embedding parents) h
         = Return X))
  /\ (forall prototype_uuid json_obj embedding previous,
     let r :=
       POST self "/api/concepts"
         (Some (VDict [
            ("prototypeUuid", VStr prototype_uuid);
            ("jsonObj", VDict json_obj);
            ("embedding",
             of_optional (of_list VFloat) (default None embedding));
            ("previousVersionUuid",
             of_optional VStr (default None previous))])) in
     sent (create_concept self prototype_uuid json_obj embedding previous) h
     = (h ++ [r])%list
     /\ (respond (session self) h r = Return response ->
         outcome (create_concept self prototype_uuid json_obj embedding previous) h
         = Return X))
  /\ (forall label summary tags metadata associations proto,
     let r :=
       POST self "/api/nodes"
         (Some (VDict [
            ("label", VStr label);
            ("summary", of_optional VStr (default None summary));
            ("tags", VList (map VStr match tags with
                                     | given (Some l) => l
                                     | _ => []
                                     end));
            ("metadata", VDict match metadata with
                               | given (Some d) => d
                               | _ => []
                               end);
            ("associations", VList (map VDict match associations with
                                              | given (Some l) => l
                                              | _ => []
                                              end));
            ("prototypeUuid", of_optional VStr (default None proto))])) in
     sent (create_node_with_document self label summary tags metadata
                  associations proto) h
     = (h ++ [r])%list
     /\ (respond (session self) h r = Return response ->
         outcome (create_node_with_document self label summary tags metadata
                  associations proto) h
         = Return X)).
Proof.
  intros Hok Hc Hu.
  per_method ltac:(rewrite (interpret_json _ _ Hok Hc);
                   unfold outcome; simpl; rewrite Hu; reflexivity).
Qed.

Lemma create_methods_return_uuid_witness :
  outcome (create_prototype (canned_client (created "p-1")) "Person"
             omitted omitted (given (Some ["person"; "human"])) omitted
             omitted) []
  = Return (VStr "p-1").
Proof.
  destruct (create_methods_return_uuid (canned_client (created "p-1")) []
              (created "p-1") [("uuid", VStr "p-1")] (VStr "p-1"))
    as [Hproto _].
  - unfold client_or_server_error. simpl. lia.
  - reflexivity.
  - reflexivity.
  - apply (Hproto "Person" omitted omitted
             (given (Some ["person"; "human"])) omitted omitted).
    reflexivity.
Defined.

(** C2: each get-style method ([get_prototype], [get_concept],
    [get_instance], [health_check]) hands the session its one GET request,
    and when the answer to that request has a status that is no error and
    a body that decodes to a mapping [M], the method returns exactly
    [M]. *)
Theorem get_methods_return_body (self : KnowShowGoClient) (h : History)
  (response : Response) (M : dict) :
  ~ client_or_server_error (status_code response) ->
  content response = JSONText (VDict M) ->
  (forall uuid,
     let r :=
       GET self ("/api/prototypes/" ++ uuid) None in
     sent (get_prototype self uuid) h
     = (h ++ [r])%list
     /\ (respond (session self) h r = Return response ->
         outcome (get_prototype self uuid) h
         = Return (VDict M)))
  /\ (forall uuid,
     let r :=
       GET self ("/api/concepts/" ++ uuid) None in
     sent (get_concept self uuid) h
     = (h ++ [r])%list
     /\ (respond (session self) h r = Return response ->
         outcome (get_concept self uuid) h
         = Return (VDict M)))
  /\ (forall prototype_name uuid,
     let r :=
       GET self ("/api/orm/" ++ prototype_name ++ "/" ++ uuid) None in
     sent (get_instance self prototype_name uuid) h
     = (h ++ [r])%list
     /\ (respond (session self) h r = Return response ->
         outcome (get_instance self prototype_name uuid) h
         = Return (VDict M)))
  /\ (let r :=
       GET self "/health" None in
     sent (health_check self) h
     = (h ++ [r])%list
     /\ (respond (session self) h r = Return response ->
         outcome (health_check self) h
         = Return (VDict M))).
Proof.
  intros Hok Hc.
  per_method ltac:(rewrite (interpret_json _ _ Hok Hc); reflexivity).
Qed.

Lemma get_methods_return_body_witness :
  outcome (health_check (canned_client (found [("status", VStr "ok")]))) []
  = Return (VDict [("status", VStr "ok")]).
Proof.
  destruct (get_methods_return_body
              (canned_client (found [("status", VStr "ok")])) []
              (found [("status", VStr "ok")]) [("status", VStr "ok")])
    as (_ & _ & _ & _ & Hhealth).
  - unfold client_or_server_error. simpl. lia.
  - reflexivity.
  - apply Hhealth. reflexivity.
Defined.

(** C3: every call hands the session one request and no more, whatever
    the answer.  When the answer to it has a status that is a client or
    server error, the call fails with the HTTP error that carries the
    response (and so its status code): no retry, no recovery, no empty
    mapping returned.  Otherwise the primitive decodes the body as JSON and
    the decoded value is its result.  In particular a 404 makes
    [get_prototype] fail with the error of status 404. *)
Theorem error_status_propagates (self : KnowShowGoClient) (h : History)
  (response : Response) :
  (forall method endpoint kwargs,
     let r := mkRequest method (base_url self ++ endpoint)
                (kw_params kwargs) (kw_json kwargs) in
     sent (_request self method endpoint kwargs) h = (h ++ [r])%list
     /\ (respond (session self) h r = Return response ->
         (client_or_server_error (status_code response) ->
            outcome (_request self method endpoint kwargs) h
            = Raise (HTTPError response))
         /\ (~ client_or_server_error (status_code response) ->
             outcome (_request self method endpoint kwargs) h
             = match content response with
               | JSONText v => Return v
               | OtherText _ => Raise JSONDecodeError
               end)))
  /\ (forall call,
      exists r,
        sent (invoke self call) h = (h ++ [r])%list
        /\ req_method r = fst (spec_route call)
        /\ req_url r = base_url self ++ snd (spec_route call)
        /\ (respond (session self) h r = Return response ->
            client_or_server_error (status_code response) ->
            outcome (invoke self call) h = Raise (HTTPError response)))
  /\ (forall uuid,
      let r := GET self ("/api/prototypes/" ++ uuid) None in
      sent (get_prototype self uuid) h = (h ++ [r])%list
      /\ (respond (session self) h r = Return response ->
          status_code response = 404 ->
          exists e,
            outcome (get_prototype self uuid) h = Raise e
            /\ carried_status e = Some 404)).
Proof.
  split; [|split].
  - intros method endpoint kwargs r. split; [apply sent_request|].
    intros Hr. split.
    + intros He. rewrite outcome_request. fold r.
      rewrite Hr, (interpret_error _ He). reflexivity.
    + intros Hok. rewrite outcome_request. fold r. rewrite Hr. simpl.
      rewrite (is_error_status_false _ Hok). reflexivity.
  - intros call.
    destruct (invoke_sends_route self call h) as (r & Hsent & Hm & Hu).
    exists r. repeat split; try assumption.
    intros Hr He.
    assert (Ha : answered self (invoke self call) h response)
      by (exists r; split; assumption).
    clear Hsent Hm Hu Hr.
    destruct call; exchange Ha; rewrite (interpret_error _ He);
      reflexivity.
  - intros uuid r. split; [pinned|].
    intros Hr H404. exists (HTTPError response).
    split; [|simpl; now rewrite H404].
    answered_by Hr. rewrite interpret_error; [reflexivity|].
    unfold client_or_server_error. lia.
Qed.

Lemma error_status_propagates_witness :
  exists e,
    outcome (get_prototype (canned_client not_found) "missing") [] = Raise e
    /\ carried_status e = Some 404.
Proof.
  destruct (error_status_propagates (canned_client not_found) [] not_found)
    as (_ & _ & H404).
  destruct (H404 "missing") as [_ Hfail].
  apply Hfail; reflexivity.
Defined.

(** C4: [search_concepts(q, top_k=5)], the other parameters left at their
    defaults, sends the body
    [{"query": q, "topK": 5, "similarityThreshold": 0.7,
      "prototypeFilter": null}] to POST /api/concepts/search, and returns
    the field "results" of the response as it is. *)
Theorem search_concepts_top5 (self : KnowShowGoClient) (q : string)
  (h : History) :
  let body := VDict [("query", VStr q);
                     ("topK", VInt 5);
                     ("similarityThreshold", VFloat 0.7);
                     ("prototypeFilter", VNone)] in
  let r := POST self "/api/concepts/search" (Some body) in
  sent (search_concepts self q (given 5) omitted omitted) h = (h ++ [r])%list
  /\ forall response reply results,
       respond (session self) h r = Return response ->
       ~ client_or_server_error (status_code response) ->
       content response = JSONText (VDict reply) ->
       dict_get reply "results" = Some results ->
       outcome (search_concepts self q (given 5) omitted omitted) h
       = Return results.
Proof.
  intros body r. split.
  - one_request. reflexivity.
  - intros response reply results Hr Hok Hc Hres.
    pose proof (outcome_request_answered self "POST" "/api/concepts/search"
                  (json_kwarg body) h response Hr) as Ho.
    unfold search_concepts. rewrite outcome_bind. answer_with Ho.
    rewrite (interpret_json _ _ Hok Hc).
    unfold outcome. simpl. rewrite Hres. reflexivity.
Qed.

Lemma search_concepts_top5_witness :
  outcome (search_concepts
             (canned_client (found [("results", VList [VDict [("score", VFloat 0.9)]])]))
             "person named John" (given 5) omitted omitted) []
  = Return (VList [VDict [("score", VFloat 0.9)]]).
Proof.
  destruct (search_concepts_top5
              (canned_client (found [("results", VList [VDict [("score", VFloat 0.9)]])]))
              "person named John" []) as [_ Hresult].
  apply (Hresult (found [("results", VList [VDict [("score", VFloat 0.9)]])])
           [("results", VList [VDict [("score", VFloat 0.9)]])]).
  - reflexivity.
  - unfold client_or_server_error. simpl. lia.
  - reflexivity.
  - reflexivity.
Defined.

(** C5: [add_association(a, b, r)] without a strength sends to
    POST /api/associations a body whose field "strength" is 1.0, and it
    returns no value: [None] when the request primitive returns, the
    primitive's error otherwise. *)
Theorem add_association_default_strength (self : KnowShowGoClient)
  (a b r : string) (h : History) :
  let body := [("fromConceptUuid", VStr a);
               ("toConceptUuid", VStr b);
               ("relationType", VStr r);
               ("strength", VFloat 1.0)] in
  sent (add_association self a b r omitted) h
  = (h ++ [POST self "/api/associations" (Some (VDict body))])%list
  /\ dict_get body "strength" = Some (VFloat 1.0)
  /\ outcome (add_association self a b r omitted) h
     = match outcome (_request self "POST" "/api/associations"
                        (json_kwarg (VDict body))) h with
       | Return _ => Return VNone
       | Raise e => Raise e
       end.
Proof.
  intros body. repeat split.
  - one_request. reflexivity.
  - unfold add_association. rewrite outcome_bind. reflexivity.
Qed.

(** C6: [get_associations(uuid, direction=d)] issues
    GET /api/associations/{uuid} with the query parameter direction=d, for
    every string [d] (none is rejected), and returns the field
    "associations" of the response; a call without direction is the call
    with direction "both". *)
Theorem get_associations_direction (self : KnowShowGoClient) (uuid d : string)
  (h : History) :
  let r := GET self ("/api/associations/" ++ uuid)
             (Some (VDict [("direction", VStr d)])) in
  sent (get_associations self uuid (given d)) h = (h ++ [r])%list
  /\ (forall response reply associations,
        respond (session self) h r = Return response ->
        ~ client_or_server_error (status_code response) ->
        content response = JSONText (VDict reply) ->
        dict_get reply "associations" = Some associations ->
        outcome (get_associations self uuid (given d)) h = Return associations)
  /\ get_associations self uuid omitted
     = get_associations self uuid (given "both").
Proof.
  intros r. repeat split.
  - one_request. reflexivity.
  - intros response reply associations Hr Hok Hc Hres.
    pose proof (outcome_request_answered self "GET"
                  ("/api/associations/" ++ uuid)
                  (params_kwarg (VDict [("direction", VStr d)]))
                  h response Hr) as Ho.
    unfold get_associations. rewrite outcome_bind. answer_with Ho.
    rewrite (interpret_json _ _ Hok Hc).
    unfold outcome. simpl. rewrite Hres. reflexivity.
Qed.

Lemma get_associations_direction_witness :
  outcome (get_associations
             (canned_client (found [("associations", VList [])]))
             "c-1" (given "sideways")) []
  = Return (VList []).
Proof.
  destruct (get_associations_direction
              (canned_client (found [("associations", VList [])]))
              "c-1" "sideways" []) as (_ & Hresult & _).
  apply (Hresult (found [("associations", VList [])])
           [("associations", VList [])]).
  - reflexivity.
  - unfold client_or_server_error. simpl. lia.
  - reflexivity.
  - reflexivity.
Defined.

(* ===================================================================== *)
(** * The base URL                                                        *)
(* ===================================================================== *)

Lemma append_not_empty (p : string) (c : ascii) :
  p ++ String c "" <> "".
Proof.
  destruct p; discriminate.
Qed.

(** [rstrip] with a single character cuts a run of that character off the
    end. *)
Lemma rstrip_cuts_a_run (c : ascii) (s : string) :
  exists n, s = rstrip (String c "") s ++ replicate n c.
Proof.
  induction s as [|a rest [n IH]].
  - exists O. reflexivity.
  - simpl. rewrite orb_false_r.
    destruct (rstrip (String c "") rest) as [|b kept] eqn:E.
    + simpl in IH. destruct (Ascii.eqb c a) eqn:Ea.
      * apply Ascii.eqb_eq in Ea. subst a.
        exists (S n). simpl. now rewrite <- IH.
      * exists n. simpl. now rewrite <- IH.
    + exists n. simpl. simpl in IH. now rewrite <- IH.
Qed.

(** What [rstrip] keeps does not end with the character. *)
Lemma rstrip_leaves_no_trailing (c : ascii) (s p : string) :
  rstrip (String c "") s <> p ++ String c "".
Proof.
  revert p. induction s as [|a rest IH]; intros p.
  - simpl. intros H. symmetry in H. exact (append_not_empty _ _ H).
  - simpl. rewrite orb_false_r.
    destruct (rstrip (String c "") rest) as [|b kept] eqn:E.
    + destruct (Ascii.eqb c a) eqn:Ea.
      * intros H. symmetry in H. exact (append_not_empty _ _ H).
      * destruct p as [|x p']; simpl; intros H; inversion H; subst.
        -- rewrite Ascii.eqb_refl in Ea. discriminate.
        -- symmetry in H2. exact (append_not_empty _ _ H2).
    + destruct p as [|x p']; simpl; intros H; inversion H; subst.
      exact (IH p' H2).
Qed.

(** C7: the constructor stores the base URL with its trailing slashes cut
    off (what is stored is a prefix of the argument, the rest is slashes,
    and what is stored ends with no slash); every request goes to the
    stored base followed by the endpoint path, for the primitive and for
    every public call; the default base URL is http://localhost:3000. *)
Theorem base_url_prefixes_every_request (connection : Session) (b : string) :
  let self := __init__ connection (given b) in
  (exists n, b = base_url self ++ replicate n "/"%char)
  /\ (forall p, base_url self <> p ++ "/")
  /\ (forall (client : KnowShowGoClient) method endpoint kwargs h,
        sent (_request client method endpoint kwargs) h
        = (h ++ [mkRequest method (base_url client ++ endpoint)
                   (kw_params kwargs) (kw_json kwargs)])%list)
  /\ (forall (client : KnowShowGoClient) call h,
        exists r,
          sent (invoke client call) h = (h ++ [r])%list
          /\ req_url r = base_url client ++ snd (spec_route call))
  /\ base_url (__init__ connection omitted) = "http://localhost:3000".
Proof.
  intros self. repeat split.
  - exact (rstrip_cuts_a_run "/"%char b).
  - intros p. exact (rstrip_leaves_no_trailing "/"%char b p).
  - intros. apply sent_request.
  - intros client call h.
    destruct (invoke_sends_route client call h) as (r & Hsent & _ & Hurl).
    exists r. split; assumption.
Qed.

(* ===================================================================== *)
(** * Payloads                                                            *)
(* ===================================================================== *)

(** C8: in [create_prototype] and [create_node_with_document], each
    optional parameter the caller leaves out appears in the body sent as
    null, or as the empty container for labels, tags, metadata and
    associations; and whichever are left out, the request is handed to the
    session. *)
Theorem omitted_optionals_are_defaulted (self : KnowShowGoClient)
  (h : History) :
  (forall name description context labels embedding parents,
     exists body,
       sent (create_prototype self name description context labels
               embedding parents) h
       = (h ++ [POST self "/api/prototypes" (Some (VDict body))])%list
       /\ (description = omitted -> dict_get body "description" = Some VNone)
       /\ (context = omitted -> dict_get body "context" = Some VNone)
       /\ (labels = omitted -> dict_get body "labels" = Some (VList []))
       /\ (embedding = omitted -> dict_get body "embedding" = Some VNone)
       /\ (parents = omitted ->
           dict_get body "parentPrototypeUuids" = Some VNone))
  /\ (forall label summary tags metadata associations proto,
     exists body,
       sent (create_node_with_document self label summary tags metadata
               associations proto) h
       = (h ++ [POST self "/api/nodes" (Some (VDict body))])%list
       /\ (summary = omitted -> dict_get body "summary" = Some VNone)
       /\ (tags = omitted -> dict_get body "tags" = Some (VList []))
       /\ (metadata = omitted -> dict_get body "metadata" = Some (VDict []))
       /\ (associations = omitted ->
           dict_get body "associations" = Some (VList []))
       /\ (proto = omitted -> dict_get body "prototypeUuid" = Some VNone)).
Proof.
  split; intros; eexists; (split; [one_request; reflexivity|]);
    repeat split; intros ->; reflexivity.
Qed.

Lemma omitted_optionals_are_defaulted_witness :
  exists body,
    sent (create_node_with_document (canned_client (created "n-1")) "note"
            omitted (given (Some ["todo"])) omitted omitted omitted) []
    = [POST (canned_client (created "n-1")) "/api/nodes" (Some (VDict body))]
    /\ dict_get body "metadata" = Some (VDict [])
    /\ dict_get body "associations" = Some (VList []).
Proof.
  destruct (omitted_optionals_are_defaulted (canned_client (created "n-1")) [])
    as [_ Hnode].
  destruct (Hnode "note" omitted (given (Some ["todo"])) omitted omitted omitted)
    as (body & Hsent & _ & _ & Hmeta & Hassoc & _).
  exists body. split; [exact Hsent|].
  split; [exact (Hmeta eq_refl) | exact (Hassoc eq_refl)].
Defined.

(** C9: the methods that return no value ([add_association],
    [update_node_embedding], [register_prototype]) hand the session their
    one request and decode the answer all the same: when the answer to
    that request has a status that is no error and a body that is not
    valid JSON, each of them fails with the decoding error. *)
Theorem silent_methods_decode_body (self : KnowShowGoClient) (h : History)
  (response : Response) (raw : string) :
  ~ client_or_server_error (status_code response) ->
  content response = OtherText raw ->
  (forall a b relation_type strength,
     let r :=
       POST self "/api/associations"
         (Some (VDict [
            ("fromConceptUuid", VStr a);
            ("toConceptUuid", VStr b);
            ("relationType", VStr relation_type);
            ("strength", VFloat (default 1.0%float strength))])) in
     sent (add_association self a b relation_type strength) h
     = (h ++ [r])%list
     /\ (respond (session self) h r = Return response ->
         outcome (add_association self a b relation_type strength) h
         = Raise JSONDecodeError))
  /\ (forall uuid,
     let r :=
       POST self ("/api/nodes/" ++ uuid ++ "/embedding") None in
     sent (update_node_embedding self uuid) h
     = (h ++ [r])%list
     /\ (respond (session self) h r = Return response ->
         outcome (update_node_embedding self uuid) h
         = Raise JSONDecodeError))
  /\ (forall prototype_name options,
     let r :=
       POST self "/api/orm/register"
         (Some (VDict [
            ("prototypeName", VStr prototype_name);
            ("options", VDict match options with
                              | given (Some d) => d
                              | _ => []
                              end)])) in
     sent (register_prototype self prototype_name options) h
     = (h ++ [r])%list
     /\ (respond (session self) h r = Return response ->
         outcome (register_prototype self prototype_name options) h
         = Raise JSONDecodeError)).
Proof.
  intros Hok Hc.
  per_method ltac:(rewrite (interpret_not_json _ _ Hok Hc); reflexivity).
Qed.

Lemma silent_methods_decode_body_witness :
  outcome (update_node_embedding (canned_client no_content) "n-1") []
  = Raise JSONDecodeError.
Proof.
  destruct (silent_methods_decode_body (canned_client no_content) []
              no_content "") as (_ & Hupdate & _).
  - unfold client_or_server_error. simpl. lia.
  - reflexivity.
  - apply (Hupdate "n-1"). reflexivity.
Defined.

(** C10: [create_instance(n, p)] sends the body [{"properties": p}]: the
    properties sit under the key "properties", and the prototype name is in
    the path /api/orm/{n}/create only. *)
Theorem create_instance_wraps_properties (self : KnowShowGoClient)
  (n : string) (p : dict) (h : History) :
  sent (create_instance self n p) h
  = (h ++ [POST self ("/api/orm/" ++ n ++ "/create")
             (Some (VDict [("properties", VDict p)]))])%list.
Proof.
  one_request. reflexivity.
Qed.

(* ===================================================================== *)
(** * Further properties of the client                                    *)
(* ===================================================================== *)

Example main_run :
  main demo_service blank
  = (Return tt,
     mkWorld
       [mkRequest "GET" "http://localhost:3000/health" None None;
        mkRequest "POST" "http://localhost:3000/api/prototypes" None
          (Some (VDict [("name", VStr "Person");
                        ("description", VStr "A human individual");
                        ("context", VNone);
                        ("labels", VList [VStr "person"; VStr "human"]);
                        ("embedding", VNone);
                        ("parentPrototypeUuids", VNone)]));
        mkRequest "POST" "http://localhost:3000/api/concepts" None
          (Some (VDict [("prototypeUuid", VStr "p-1");
                        ("jsonObj", VDict [("name", VStr "John Doe");
                                           ("email", VStr "john@example.com")]);
                        ("embedding", VNone);
                        ("previousVersionUuid", VNone)]));
        mkRequest "POST" "http://localhost:3000/api/concepts/search" None
          (Some (VDict [("query", VStr "person named John");
                        ("topK", VInt 5);
                        ("similarityThreshold", VFloat 0.7);
                        ("prototypeFilter", VNone)]))]
       [[Text "Health:"; Text " "; Str (VDict [("status", VStr "ok")])];
        [Text "Created prototype: "; Str (VStr "p-1")];
        [Text "Created concept: "; Str (VStr "c-1")];
        [Text "Search results: "; Str (VInt 0); Text " found"]]).
Proof. reflexivity. Qed.

Example len_counts_characters :
  (* the euro sign, U+20AC, is the three bytes E2 82 AC *)
  len (VStr (String (ascii_of_nat 226)
               (String (ascii_of_nat 130)
                  (String (ascii_of_nat 172) "ab")))) blank
  = (Return 3, blank).
Proof. reflexivity. Qed.

Example len_of_a_number_fails :
  len (VInt 3) blank = (Raise TypeError, blank).
Proof. reflexivity. Qed.

Example main_without_service :
  main (broken (ConnectionError "refused")) blank
  = (Raise (ConnectionError "refused"),
     mkWorld [mkRequest "GET" "http://localhost:3000/health" None None] []).
Proof. reflexivity. Qed.

(** ** Failures in transport *)

Lemma refused_inv (self : KnowShowGoClient) (c : M value) (h : History)
  (r0 : Request) (e : Exception) :
  sent c h = (h ++ [r0])%list ->
  refused self c h e ->
  respond (session self) h r0 = Raise e.
Proof.
  intros Hsent (r & Hr & Hf). rewrite Hsent in Hr.
  apply app_inj_tail in Hr. destruct Hr as [_ Hr]. now subst r.
Qed.

Lemma outcome_request_refused (self : KnowShowGoClient)
  (method endpoint : string) (kwargs : Kwargs) (h : History) (e : Exception) :
  respond (session self) h
    (mkRequest method (base_url self ++ endpoint)
       (kw_params kwargs) (kw_json kwargs)) = Raise e ->
  outcome (_request self method endpoint kwargs) h = Raise e.
Proof.
  intros Hr. rewrite outcome_request, Hr. reflexivity.
Qed.

(** From [Hf : refused self (method ...) h e], rewrite the outcome of the
    method's [_request] to [Raise e]. *)
Ltac breakdown Hf :=
  eapply refused_inv in Hf; [|one_request; reflexivity];
  apply outcome_request_refused in Hf;
  unfold_methods; rewrite ?outcome_bind; answer_with Hf.

(** X1: every public call hands the session one request and no more, and
    when [session.request] raises on it (connection refused, timeout, ...)
    the call raises that same exception, unchanged: nothing is decoded,
    retried or replaced by a value. *)
Theorem transport_failure_propagates (self : KnowShowGoClient) (h : History)
  (e : Exception) (call : Call) :
  exists r,
    sent (invoke self call) h = (h ++ [r])%list
    /\ req_method r = fst (spec_route call)
    /\ req_url r = base_url self ++ snd (spec_route call)
    /\ (respond (session self) h r = Raise e ->
        invoke self call h = (Raise e, (h ++ [r])%list)).
Proof.
  destruct (invoke_sends_route self call h) as (r & Hsent & Hm & Hu).
  exists r. repeat split; try assumption.
  intros Hr.
  assert (Hf : refused self (invoke self call) h e)
    by (exists r; split; assumption).
  rewrite run_is_outcome_and_sent, Hsent. f_equal.
  clear Hsent Hm Hu Hr.
  destruct call; breakdown Hf; reflexivity.
Qed.

Lemma transport_failure_propagates_witness :
  exists r,
    invoke (__init__ (broken ReadTimeout) omitted)
      (AddAssociation "c-1" "c-2" "relatesTo" omitted) []
    = (Raise ReadTimeout, [r]).
Proof.
  destruct (transport_failure_propagates
              (__init__ (broken ReadTimeout) omitted) [] ReadTimeout
              (AddAssociation "c-1" "c-2" "relatesTo" omitted))
    as (r & _ & _ & _ & Hfail).
  exists r. apply Hfail. reflexivity.
Defined.

(** ** Replies of an unexpected shape *)

(** X2: the five methods that return one field of the reply
    ([create_prototype], [create_concept], [create_node_with_document] read
    "uuid", [search_concepts] reads "results", [get_associations] reads
    "associations") hand the session their one request, and raise
    [KeyError] naming that field when the answer to it is a mapping without
    the field. *)
Theorem missing_field_raises_key_error (self : KnowShowGoClient) (h : History)
  (response : Response) (reply : dict) :
  ~ client_or_server_error (status_code response) ->
  content response = JSONText (VDict reply) ->
  (forall name description context labels embedding parents,
     let r :=
       POST self "/api/prototypes"
         (Some (VDict [
            ("name", VStr name);
            ("description", of_optional VStr (default None description));
            ("context", of_optional VStr (default None context));
            ("labels", VList (map VStr match labels with
                                       | given (Some l) => l
                                       | _ => []
                                       end));
            ("embedding",
             of_optional (of_list VFloat) (default None embedding));
            ("parentPrototypeUuids",
             of_optional (of_list VStr) (default None parents))])) in
     sent (create_prototype self name description context labels
                  embedding parents) h
     = (h ++ [r])%list
     /\ (respond (session self) h r = Return response ->
         dict_get reply "uuid" = None ->
         outcome (create_prototype self name description context labels
                  embedding parents) h
         = Raise (KeyError "uuid")))
  /\ (forall prototype_uuid json_obj embedding previous,
     let r :=
       POST self "/api/concepts"
         (Some (VDict [
            ("prototypeUuid", VStr prototype_uuid);
            ("jsonObj", VDict json_obj);
            ("embedding",
             of_optional (of_list VFloat) (default None embedding));
            ("previousVersionUuid",
             of_optional VStr (default None previous))])) in
     sent (create_concept self prototype_uuid json_obj embedding previous) h
     = (h ++ [r])%list
     /\ (respond (session self) h r = Return response ->
         dict_get reply "uuid" = None ->
         outcome (create_concept self prototype_uuid json_obj embedding previous) h
         = Raise (KeyError "uuid")))
  /\ (forall label summary tags metadata associations proto,
     let r :=
       POST self "/api/nodes"
         (Some (VDict [
            ("label", VStr label);
            ("summary", of_optional VStr (default None summary));
            ("tags", VList (map VStr match tags with
                                     | given (Some l) => l
                                     | _ => []
                                     end));
            ("metadata", VDict match metadata with
                               | given (Some d) => d
                               | _ => []
                               end);
            ("associations", VList (map VDict match associations with
                                              | given (Some l) => l
                                              | _ => []
                                              end));
            ("prototypeUuid", of_optional VStr (default None proto))])) in
     sent (create_node_with_document self label summary tags metadata
                  associations proto) h
     = (h ++ [r])%list
     /\ (respond (session self) h r = Return response ->
         dict_get reply "uuid" = None ->
         outcome (create_node_with_document self label summary tags metadata
                  associations proto) h
         = Raise (KeyError "uuid")))
  /\ (forall query top_k threshold filter,
     let r :=
       POST self "/api/concepts/search"
         (Some (VDict [
            ("query", VStr query);
            ("topK", VInt (default 10 top_k));
            ("similarityThreshold", VFloat (default 0.7%float threshold));
            ("prototypeFilter", of_optional VStr (default None filter))])) in
     sent (search_concepts self query top_k threshold filter) h
     = (h ++ [r])%list
     /\ (respond (session self) h r = Return response ->
         dict_get reply "results" = None ->
         outcome (search_concepts self query top_k threshold filter) h
         = Raise (KeyError "results")))
  /\ (forall uuid direction,
     let r :=
       GET self ("/api/associations/" ++ uuid)
         (Some (VDict [("direction", VStr (default "both" direction))])) in
     sent (get_associations self uuid direction) h
     = (h ++ [r])%list
     /\ (respond (session self) h r = Return response ->
         dict_get reply "associations" = None ->
         outcome (get_associations self uuid direction) h
         = Raise (KeyError "associations"))).
Proof.
  intros Hok Hc.
  per_method ltac:(rewrite (interpret_json _ _ Hok Hc);
                   unfold outcome; simpl;
                   match goal with
                   | Hn : dict_get _ _ = None |- _ => rewrite Hn
                   end;
                   reflexivity).
Qed.

Lemma missing_field_raises_key_error_witness :
  outcome (search_concepts (canned_client (found [("hits", VList [])]))
             "person" omitted omitted omitted) []
  = Raise (KeyError "results").
Proof.
  destruct (missing_field_raises_key_error
              (canned_client (found [("hits", VList [])])) []
              (found [("hits", VList [])]) [("hits", VList [])])
    as (_ & _ & _ & Hsearch & _).
  - unfold client_or_server_error. simpl. lia.
  - reflexivity.
  - apply (Hsearch "person" omitted omitted omitted); reflexivity.
Defined.

(** X3: the same five methods raise [TypeError] when the answer to their
    request decodes to JSON that is not a mapping (a list, a string, a
    number, a boolean or null): the field is read by subscripting with a
    string. *)
Theorem reply_not_a_mapping_raises_type_error (self : KnowShowGoClient)
  (h : History) (response : Response) (v : value) :
  ~ client_or_server_error (status_code response) ->
  content response = JSONText v ->
  (forall d, v <> VDict d) ->
  (forall name description context labels embedding parents,
     let r :=
       POST self "/api/prototypes"
         (Some (VDict [
            ("name", VStr name);
            ("description", of_optional VStr (default None description));
            ("context", of_optional VStr (default None context));
            ("labels", VList (map VStr match labels with
                                       | given (Some l) => l
                                       | _ => []
                                       end));
            ("embedding",
             of_optional (of_list VFloat) (default None embedding));
            ("parentPrototypeUuids",
             of_optional (of_list VStr) (default None parents))])) in
     sent (create_prototype self name description context labels
                  embedding parents) h
     = (h ++ [r])%list
     /\ (respond (session self) h r = Return response ->
         outcome (create_prototype self name description context labels
                  embedding parents) h
         = Raise TypeError))
  /\ (forall prototype_uuid json_obj embedding previous,
     let r :=
       POST self "/api/concepts"
         (Some (VDict [
            ("prototypeUuid", VStr prototype_uuid);
            ("jsonObj", VDict json_obj);
            ("embedding",
             of_optional (of_list VFloat) (default None embedding));
            ("previousVersionUuid",
             of_optional VStr (default None previous))])) in
     sent (create_concept self prototype_uuid json_obj embedding previous) h
     = (h ++ [r])%list
     /\ (respond (session self) h r = Return response ->
         outcome (create_concept self prototype_uuid json_obj embedding previous) h
         = Raise TypeError))
  /\ (forall label summary tags metadata associations proto,
     let r :=
       POST self "/api/nodes"
         (Some (VDict [
            ("label", VStr label);
            ("summary", of_optional VStr (default None summary));
            ("tags", VList (map VStr match tags with
                                     | given (Some l) => l
                                     | _ => []
                                     end));
            ("metadata", VDict match metadata with
                               | given (Some d) => d
                               | _ => []
                               end);
            ("associations", VList (map VDict match associations with
                                              | given (Some l) => l
                                              | _ => []
                                              end));
            ("prototypeUuid", of_optional VStr (default None proto))])) in
     sent (create_node_with_document self label summary tags metadata
                  associations proto) h
     = (h ++ [r])%list
     /\ (respond (session self) h r = Return response ->
         outcome (create_node_with_document self label summary tags metadata
                  associations proto) h
         = Raise TypeError))
  /\ (forall query top_k threshold filter,
     let r :=
       POST self "/api/concepts/search"
         (Some (VDict [
            ("query", VStr query);
            ("topK", VInt (default 10 top_k));
            ("similarityThreshold", VFloat (default 0.7%float threshold));
            ("prototypeFilter", of_optional VStr (default None filter))])) in
     sent (search_concepts self query top_k threshold filter) h
     = (h ++ [r])%list
     /\ (respond (session self) h r = Return response ->
         outcome (search_concepts self query top_k threshold filter) h
         = Raise TypeError))
  /\ (forall uuid direction,
     let r :=
       GET self ("/api/associations/" ++ uuid)
         (Some (VDict [("direction", VStr (default "both" direction))])) in
     sent (get_associations self uuid direction) h
     = (h ++ [r])%list
     /\ (respond (session self) h r = Return response ->
         outcome (get_associations self uuid direction) h
         = Raise TypeError)).
Proof.
  intros Hok Hc Hv.
  assert (Hsub : forall key h', subscript v key h' = (Raise TypeError, h')).
  { intros key h'. destruct v; try reflexivity. now destruct (Hv d). }
  per_method ltac:(rewrite (interpret_json _ _ Hok Hc);
                   unfold outcome; rewrite Hsub; reflexivity).
Qed.

Lemma reply_not_a_mapping_raises_type_error_witness :
  outcome (get_associations
             (canned_client (mkResponse 200 "OK" (JSONText (VList []))))
             "c-1" omitted) []
  = Raise TypeError.
Proof.
  destruct (reply_not_a_mapping_raises_type_error
              (canned_client (mkResponse 200 "OK" (JSONText (VList [])))) []
              (mkResponse 200 "OK" (JSONText (VList []))) (VList []))
    as (_ & _ & _ & _ & Hlist).
  - unfold client_or_server_error. simpl. lia.
  - reflexivity.
  - intros d. discriminate.
  - apply (Hlist "c-1" omitted). reflexivity.
Defined.

(** X4: the five methods that return the whole reply ([get_prototype],
    [get_concept], [create_instance], [get_instance], [health_check]) hand
    the session their one request and return whatever JSON value the
    answer to it decodes to, a mapping or not, unchanged. *)
Theorem whole_reply_methods_return_any_json (self : KnowShowGoClient)
  (h : History) (response : Response) (v : value) :
  ~ client_or_server_error (status_code response) ->
  content response = JSONText v ->
  (forall uuid,
     let r :=
       GET self ("/api/prototypes/" ++ uuid) None in
     sent (get_prototype self uuid) h
     = (h ++ [r])%list
     /\ (respond (session self) h r = Return response ->
         outcome (get_prototype self uuid) h
         = Return v))
  /\ (forall uuid,
     let r :=
       GET self ("/api/concepts/" ++ uuid) None in
     sent (get_concept self uuid) h
     = (h ++ [r])%list
     /\ (respond (session self) h r = Return response ->
         outcome (get_concept self uuid) h
         = Return v))
  /\ (forall prototype_name properties,
     let r :=
       POST self ("/api/orm/" ++ prototype_name ++ "/create")
         (Some (VDict [("properties", VDict properties)])) in
     sent (create_instance self prototype_name properties) h
     = (h ++ [r])%list
     /\ (respond (session self) h r = Return response ->
         outcome (create_instance self prototype_name properties) h
         = Return v))
  /\ (forall prototype_name uuid,
     let r :=
       GET self ("/api/orm/" ++ prototype_name ++ "/" ++ uuid) None in
     sent (get_instance self prototype_name uuid) h
     = (h ++ [r])%list
     /\ (respond (session self) h r = Return response ->
         outcome (get_instance self prototype_name uuid) h
         = Return v))
  /\ (let r :=
       GET self "/health" None in
     sent (health_check self) h
     = (h ++ [r])%list
     /\ (respond (session self) h r = Return response ->
         outcome (health_check self) h
         = Return v)).
Proof.
  intros Hok Hc.
  per_method ltac:(rewrite (interpret_json _ _ Hok Hc); reflexivity).
Qed.

Lemma whole_reply_methods_return_any_json_witness :
  outcome (create_instance
             (canned_client (mkResponse 200 "OK" (JSONText (VList [VInt 1]))))
             "Person" [("name", VStr "John Doe")]) []
  = Return (VList [VInt 1]).
Proof.
  destruct (whole_reply_methods_return_any_json
              (canned_client (mkResponse 200 "OK" (JSONText (VList [VInt 1]))))
              [] (mkResponse 200 "OK" (JSONText (VList [VInt 1])))
              (VList [VInt 1]))
    as (_ & _ & Hcreate & _).
  - unfold client_or_server_error. simpl. lia.
  - reflexivity.
  - apply (Hcreate "Person" [("name", VStr "John Doe")]). reflexivity.
Defined.

(** X5: the three methods without a result ([add_association],
    [update_node_embedding], [register_prototype]) hand the session their
    one request and return [None] whenever the answer to it decodes as
    JSON, whatever it holds: the reply is dropped. *)
Theorem silent_methods_return_none (self : KnowShowGoClient) (h : History)
  (response : Response) (v : value) :
  ~ client_or_server_error (status_code response) ->
  content response = JSONText v ->
  (forall a b relation_type strength,
     let r :=
       POST self "/api/associations"
         (Some (VDict [
            ("fromConceptUuid", VStr a);
            ("toConceptUuid", VStr b);
            ("relationType", VStr relation_type);
            ("strength", VFloat (default 1.0%float strength))])) in
     sent (add_association self a b relation_type strength) h
     = (h ++ [r])%list
     /\ (respond (session self) h r = Return response ->
         outcome (add_association self a b relation_type strength) h
         = Return VNone))
  /\ (forall uuid,
     let r :=
       POST self ("/api/nodes/" ++ uuid ++ "/embedding") None in
     sent (update_node_embedding self uuid) h
     = (h ++ [r])%list
     /\ (respond (session self) h r = Return response ->
         outcome (update_node_embedding self uuid) h
         = Return VNone))
  /\ (forall prototype_name options,
     let r :=
       POST self "/api/orm/register"
         (Some (VDict [
            ("prototypeName", VStr prototype_name);
            ("options", VDict match options with
                              | given (Some d) => d
                              | _ => []
                              end)])) in
     sent (register_prototype self prototype_name options) h
     = (h ++ [r])%list
     /\ (respond (session self) h r = Return response ->
         outcome (register_prototype self prototype_name options) h
         = Return VNone)).
Proof.
  intros Hok Hc.
  per_method ltac:(rewrite (interpret_json _ _ Hok Hc); reflexivity).
Qed.

Lemma silent_methods_return_none_witness :
  outcome (register_prototype
             (canned_client (found [("error", VStr "unknown prototype")]))
             "Person" omitted) []
  = Return VNone.
Proof.
  destruct (silent_methods_return_none
              (canned_client (found [("error", VStr "unknown prototype")])) []
              (found [("error", VStr "unknown prototype")])
              (VDict [("error", VStr "unknown prototype")]))
    as (_ & _ & Hregister).
  - unfold client_or_server_error. simpl. lia.
  - reflexivity.
  - apply (Hregister "Person" omitted). reflexivity.
Defined.

(** ** Shape of the requests *)

(** X6: whatever the call and its arguments, the one request it hands to
    the session is a GET or a POST; a GET never carries a JSON body; no
    request carries both query parameters and a JSON body; a JSON body is
    always a mapping with at least one field and no field twice (never a
    bare list or null); and query parameters are the single parameter
    "direction". *)
Theorem request_shape (self : KnowShowGoClient) (call : Call) (h : History) :
  exists r,
    sent (invoke self call) h = (h ++ [r])%list
    /\ (req_method r = "GET" \/ req_method r = "POST")
    /\ (req_method r = "GET" -> req_json r = None)
    /\ (req_params r = None \/ req_json r = None)
    /\ (forall body, req_json r = Some body ->
          exists d, body = VDict d /\ d <> [] /\ NoDup (map fst d))
    /\ (forall query, req_params r = Some query ->
          exists d, query = VDict [("direction", VStr d)]).
Proof.
  destruct call; one_request; eexists; (split; [reflexivity|]); simpl;
    (split; [auto|]);
    (split; [first [reflexivity | discriminate]|]);
    (split; [auto|]);
    (split; [|first [discriminate
                    | intros query Hq; injection Hq as <-; eexists;
                      reflexivity]]);
    first [discriminate
          | intros body Hb; injection Hb as <-; eexists;
            split; [reflexivity|]; split; [discriminate|];
            simpl; repeat constructor; simpl; intuition discriminate].
Qed.

(** ** Defaults through [or] *)

(** X7: the container fields are never sent as null and never altered.
    "labels" ([create_prototype]), "tags" and "associations"
    ([create_node_with_document]) are always a list, "metadata"
    ([create_node_with_document]) and "options" ([register_prototype])
    always a mapping: exactly what the caller passed, empty or not, and the
    empty container when the parameter was left out or passed as [None]. *)
Theorem container_fields_are_passed_or_empty (self : KnowShowGoClient)
  (h : History) :
  (forall name description context labels embedding parents,
     exists body,
       sent (create_prototype self name description context labels
               embedding parents) h
       = (h ++ [POST self "/api/prototypes" (Some (VDict body))])%list
       /\ dict_get body "labels"
          = Some (VList (map VStr match labels with
                                  | given (Some l) => l
                                  | _ => []
                                  end)))
  /\ (forall label summary tags metadata associations proto,
     exists body,
       sent (create_node_with_document self label summary tags metadata
               associations proto) h
       = (h ++ [POST self "/api/nodes" (Some (VDict body))])%list
       /\ dict_get body "tags"
          = Some (VList (map VStr match tags with
                                  | given (Some l) => l
                                  | _ => []
                                  end))
       /\ dict_get body "metadata"
          = Some (VDict match metadata with
                        | given (Some d) => d
                        | _ => []
                        end)
       /\ dict_get body "associations"
          = Some (VList (map VDict match associations with
                                   | given (Some l) => l
                                   | _ => []
                                   end)))
  /\ (forall prototype_name options,
     exists body,
       sent (register_prototype self prototype_name options) h
       = (h ++ [POST self "/api/orm/register" (Some (VDict body))])%list
       /\ dict_get body "prototypeName" = Some (VStr prototype_name)
       /\ dict_get body "options"
          = Some (VDict match options with
                        | given (Some d) => d
                        | _ => []
                        end)).
Proof.
  repeat split; intros; eexists;
    (split; [one_request; reflexivity|]); simpl;
    rewrite ?or_empty_list, ?or_empty_dict; repeat split; reflexivity.
Qed.

(** ** Paths *)

Lemma string_append_assoc (a b c : string) :
  (a ++ b) ++ c = a ++ (b ++ c).
Proof.
  induction a as [|x a IH]; simpl; [reflexivity | now rewrite IH].
Qed.

(** X8: path segments are put into the URL as they are, without escaping,
    so a slash inside an argument moves the boundary between segments:
    [get_instance] with prototype name [n/u] and uuid [v] is the same call
    as with prototype name [n] and uuid [u/v]. *)
Theorem get_instance_segments_are_not_escaped (self : KnowShowGoClient)
  (n u v : string) :
  get_instance self (n ++ "/" ++ u) v = get_instance self n (u ++ "/" ++ v).
Proof.
  unfold get_instance. do 2 f_equal.
  now rewrite !string_append_assoc.
Qed.

(** ** More on the base URL *)

Lemma string_append_empty_r (s : string) : s ++ "" = s.
Proof.
  induction s as [|x s IH]; simpl; [reflexivity | now rewrite IH].
Qed.

Lemma replicate_snoc (n : nat) (c : ascii) :
  replicate (S n) c = replicate n c ++ String c "".
Proof.
  induction n as [|n IH]; [reflexivity|].
  simpl. f_equal. exact IH.
Qed.

Lemma rstrip_of_a_run (c : ascii) (n : nat) :
  rstrip (String c "") (replicate n c) = "".
Proof.
  induction n as [|n IH]; [reflexivity|].
  simpl. rewrite IH, Ascii.eqb_refl. reflexivity.
Qed.

Lemma rstrip_ignores_a_trailing_run (c : ascii) (s : string) (n : nat) :
  rstrip (String c "") (s ++ replicate n c) = rstrip (String c "") s.
Proof.
  induction s as [|a s IH].
  - simpl. apply rstrip_of_a_run.
  - simpl. rewrite IH. reflexivity.
Qed.

Lemma rstrip_keeps_unslashed (c : ascii) (s : string) :
  (forall p, s <> p ++ String c "") ->
  rstrip (String c "") s = s.
Proof.
  intros Hs. destruct (rstrip_cuts_a_run c s) as [[|n] Hn].
  - rewrite string_append_empty_r in Hn. now symmetry.
  - rewrite replicate_snoc, <- string_append_assoc in Hn.
    now destruct (Hs _ Hn).
Qed.

(** X9: base URLs that differ only in how many slashes they end with build
    the same client, so they lead to the same requests. *)
Theorem trailing_slashes_do_not_matter (connection : Session) (b : string)
  (n : nat) :
  __init__ connection (given (b ++ replicate n "/"%char))
  = __init__ connection (given b).
Proof.
  unfold __init__. simpl.
  now rewrite (rstrip_ignores_a_trailing_run "/"%char b n).
Qed.

(** X10: a base URL that does not end with a slash is stored as it is; in
    particular, building a client from the stored base of a client changes
    nothing. *)
Theorem unslashed_base_url_is_kept (connection : Session) (b : string) :
  (forall p, b <> p ++ "/") ->
  base_url (__init__ connection (given b)) = b
  /\ __init__ connection
       (given (base_url (__init__ connection (given (b ++ "/")))))
     = __init__ connection (given b).
Proof.
  intros Hb.
  assert (Hkeep : rstrip "/" b = b)
    by exact (rstrip_keeps_unslashed "/"%char b Hb).
  split.
  - exact Hkeep.
  - unfold __init__. simpl.
    change (b ++ "/") with (b ++ replicate 1 "/"%char).
    rewrite (rstrip_ignores_a_trailing_run "/"%char b 1), Hkeep, Hkeep.
    reflexivity.
Qed.

Lemma unslashed_base_url_is_kept_witness :
  base_url (__init__ demo_service (given "http://kg.example:8080/v1"))
  = "http://kg.example:8080/v1".
Proof.
  apply (unslashed_base_url_is_kept demo_service "http://kg.example:8080/v1").
  intros p.
  exact (rstrip_leaves_no_trailing "/"%char "http://kg.example:8080/v1" p).
Defined.

(** ** Where a returned value comes from *)

Lemma outcome_request_inv (self : KnowShowGoClient) (method endpoint : string)
  (kwargs : Kwargs) (h : History) (v : value) :
  outcome (_request self method endpoint kwargs) h = Return v ->
  exists response,
    respond (session self) h
      (mkRequest method (base_url self ++ endpoint)
         (kw_params kwargs) (kw_json kwargs)) = Return response
    /\ ~ client_or_server_error (status_code response)
    /\ content response = JSONText v.
Proof.
  rewrite outcome_request. unfold interpret.
  destruct (respond (session self) h _) as [response|e]; [|discriminate].
  destruct (is_error_status (status_code response)) eqn:Es; [discriminate|].
  destruct (content response) as [v'|raw] eqn:Ec; [|discriminate].
  intros Hv. injection Hv as <-. exists response.
  split; [reflexivity|]. split; [|exact Ec].
  intros He. apply is_error_status_iff in He. congruence.
Qed.

Lemma outcome_subscript_inv (obj : value) (key : string) (h : History)
  (x : value) :
  outcome (subscript obj key) h = Return x ->
  exists d, obj = VDict d /\ dict_get d key = Some x.
Proof.
  unfold outcome. destruct obj; try discriminate.
  simpl. destruct (dict_get d key) as [y|] eqn:Ey; [|discriminate].
  intros Hx. injection Hx as <-. now exists d.
Qed.

(** A method that reads [key] off the reply to its request returns [x] only
    on a reply that held [x] under [key]. *)
Lemma outcome_request_field_inv (self : KnowShowGoClient)
  (method endpoint key : string) (kwargs : Kwargs) (h : History) (x : value) :
  outcome (bind (_request self method endpoint kwargs)
             (fun result => subscript result key)) h = Return x ->
  exists response reply,
    respond (session self) h
      (mkRequest method (base_url self ++ endpoint)
         (kw_params kwargs) (kw_json kwargs)) = Return response
    /\ ~ client_or_server_error (status_code response)
    /\ content response = JSONText (VDict reply)
    /\ dict_get reply key = Some x.
Proof.
  rewrite outcome_bind.
  destruct (outcome (_request self method endpoint kwargs) h) as [v|e] eqn:Ev;
    [|discriminate].
  intros Hx. apply outcome_subscript_inv in Hx. destruct Hx as (d & -> & Hd).
  apply outcome_request_inv in Ev. destruct Ev as (response & Hr & Hok & Hc).
  now exists response, d.
Qed.

(** X11: a create method never makes up an identifier.  Whenever
    [create_prototype], [create_concept] or [create_node_with_document]
    returns a value [X], the service answered the request with a status
    that is no client or server error and a JSON mapping holding [X] under
    "uuid". *)
Theorem created_uuid_comes_from_the_reply (self : KnowShowGoClient)
  (h : History) (X : value) :
  let from_reply (c : M value) :=
    outcome c h = Return X ->
    exists r response reply,
      sent c h = (h ++ [r])%list
      /\ respond (session self) h r = Return response
      /\ ~ client_or_server_error (status_code response)
      /\ content response = JSONText (VDict reply)
      /\ dict_get reply "uuid" = Some X in
  (forall name description context labels embedding parents,
      from_reply (create_prototype self name description context labels
                    embedding parents))
  /\ (forall prototype_uuid json_obj embedding previous,
      from_reply (create_concept self prototype_uuid json_obj embedding
                    previous))
  /\ (forall label summary tags metadata associations proto,
      from_reply (create_node_with_document self label summary tags metadata
                    associations proto)).
Proof.
  intros from_reply. unfold from_reply.
  repeat split; intros * Hx;
    apply outcome_request_field_inv in Hx;
    destruct Hx as (response & reply & Hr & Hok & Hc & Hu);
    eexists; exists response, reply;
    (split; [one_request; reflexivity|]); auto.
Qed.

Lemma created_uuid_comes_from_the_reply_witness :
  exists r response reply,
    sent (create_concept (canned_client (created "c-1")) "p-1"
            [("name", VStr "John Doe")] omitted omitted) [] = [r]
    /\ respond (session (canned_client (created "c-1"))) [] r = Return response
    /\ ~ client_or_server_error (status_code response)
    /\ content response = JSONText (VDict reply)
    /\ dict_get reply "uuid" = Some (VStr "c-1").
Proof.
  destruct (created_uuid_comes_from_the_reply (canned_client (created "c-1"))
              [] (VStr "c-1")) as (_ & Hconcept & _).
  apply (Hconcept "p-1" [("name", VStr "John Doe")] omitted omitted).
  reflexivity.
Defined.

(** ** The example script *)

Lemma lift_run {A : Type} (c : M A) (w : World) :
  lift c w = (outcome c (wire w), mkWorld (sent c (wire w)) (stdout w)).
Proof.
  unfold lift, outcome, sent. destruct (c (wire w)); reflexivity.
Qed.

Lemma create_concept_dyn_on_str (self : KnowShowGoClient)
  (prototype_uuid : string) (json_obj : dict)
  (embedding : kwarg (option (list float)))
  (previous_version_uuid : kwarg (option string)) :
  create_concept_dyn self (VStr prototype_uuid) json_obj embedding
    previous_version_uuid
  = create_concept self prototype_uuid json_obj embedding
      previous_version_uuid.
Proof. reflexivity. Qed.

(** One step of the script: a call of the client followed by the rest. *)
Lemma io_bind_lift {A B : Type} (c : M A) (k : A -> IO B) (w : World) :
  io_bind (lift c) k w
  = match outcome c (wire w) with
    | Return a => k a (mkWorld (sent c (wire w)) (stdout w))
    | Raise e => (Raise e, mkWorld (sent c (wire w)) (stdout w))
    end.
Proof.
  unfold io_bind. rewrite lift_run.
  destruct (outcome c (wire w)); reflexivity.
Qed.

Lemma io_bind_print {B : Type} (line : Line) (k : unit -> IO B) (w : World) :
  io_bind (print line) k w
  = k tt (mkWorld (wire w) (stdout w ++ [line])%list).
Proof. reflexivity. Qed.

Lemma sent_create_concept_dyn (self : KnowShowGoClient)
  (prototype_uuid : value) (json_obj : dict)
  (embedding : kwarg (option (list float)))
  (previous_version_uuid : kwarg (option string)) (h : History) :
  sent (create_concept_dyn self prototype_uuid json_obj embedding
          previous_version_uuid) h
  = (h ++ [POST self "/api/concepts"
             (Some (VDict [
                ("prototypeUuid", prototype_uuid);
                ("jsonObj", VDict json_obj);
                ("embedding",
                 of_optional (of_list VFloat) (default None embedding));
                ("previousVersionUuid",
                 of_optional VStr (default None previous_version_uuid))]))])%list.
Proof.
  unfold create_concept_dyn.
  rewrite sent_bind by (intros; apply subscript_sends_nothing).
  rewrite sent_request. reflexivity.
Qed.

(** Fold the requests sent so far into one list after the start history. *)
Ltac gather := rewrite <- ?app_assoc; cbn [app].

(** X12: the script stops at the first failure.  Whatever the service
    does, it hands the session the first requests of its four (health
    check, prototype, concept, search), in that order and at the default
    base URL; when it ends normally all four were sent and four lines were
    printed; when it ends in an exception, the request that failed was the
    last one sent and only the lines of the requests before it were
    printed. *)
Theorem main_stops_at_first_failure (connection : Session) (w : World) :
  exists reqs lines,
    wire (snd (main connection w)) = (wire w ++ reqs)%list
    /\ stdout (snd (main connection w)) = (stdout w ++ lines)%list
    /\ map route_of reqs = firstn (length reqs) script_routes
    /\ match fst (main connection w) with
       | Return _ => length reqs = 4%nat /\ length lines = 4%nat
       | Raise _ => length reqs = S (length lines)
       end.
Proof.
  unfold main. cbv zeta.
  set (client := __init__ connection omitted).
  rewrite io_bind_lift.
  replace (sent (health_check client) (wire w))
    with (wire w ++ [GET client "/health" None])%list
    by (one_request; reflexivity).
  destruct (outcome (health_check client) (wire w)) as [health|e].
  2: { eexists [_], []. cbn [fst snd wire stdout].
       rewrite app_nil_r. repeat split. }
  rewrite io_bind_print. cbn [wire stdout]. rewrite io_bind_lift.
  cbn [wire stdout].
  match goal with
  | |- context [sent ?c ?h] =>
      replace (sent c h)
        with (h ++ [POST client "/api/prototypes"
                      (Some (VDict [("name", VStr "Person");
                                    ("description", VStr "A human individual");
                                    ("context", VNone);
                                    ("labels", VList [VStr "person"; VStr "human"]);
                                    ("embedding", VNone);
                                    ("parentPrototypeUuids", VNone)]))])%list
        by (one_request; reflexivity);
      destruct (outcome c h) as [proto_uuid|e]
  end.
  2: { eexists [_; _], [_]. cbn [fst snd wire stdout]. gather.
       repeat split. }
  rewrite io_bind_print. cbn [wire stdout]. rewrite io_bind_lift.
  cbn [wire stdout]. rewrite sent_create_concept_dyn.
  match goal with
  | |- context [outcome ?c ?h] => destruct (outcome c h) as [concept_uuid|e]
  end.
  2: { eexists [_; _; _], [_; _]. cbn [fst snd wire stdout]. gather.
       repeat split. }
  rewrite io_bind_print. cbn [wire stdout]. rewrite io_bind_lift.
  cbn [wire stdout].
  match goal with
  | |- context [sent ?c ?h] =>
      replace (sent c h)
        with (h ++ [POST client "/api/concepts/search"
                      (Some (VDict [("query", VStr "person named John");
                                    ("topK", VInt 5);
                                    ("similarityThreshold", VFloat 0.7);
                                    ("prototypeFilter", VNone)]))])%list
        by (one_request; reflexivity);
      destruct (outcome c h) as [results|e]
  end.
  2: { eexists [_; _; _; _], [_; _; _]. cbn [fst snd wire stdout]. gather.
       repeat split. }
  destruct results; unfold len, io_bind, io_ret, io_raise, print;
    cbn [fst snd wire stdout];
    first [ solve [eexists [_; _; _; _], [_; _; _; _]; gather;
                   repeat split; reflexivity]
          | solve [eexists [_; _; _; _], [_; _; _]; gather;
                   repeat split; reflexivity] ].
Qed.

(** X13: in a run of the script that ends normally, the prototype
    identifier travels from the service to the next request: the value the
    service returned under "uuid" for the prototype is the one printed on
    the second line and the one sent as "prototypeUuid" of the concept,
    whatever kind of JSON value it is. *)
Theorem main_passes_on_the_prototype_uuid (connection : Session) (w : World) :
  fst (main connection w) = Return tt ->
  exists r1 r2 r3 r4 response reply X body line1 line3 line4,
    wire (snd (main connection w)) = (wire w ++ [r1; r2; r3; r4])%list
    /\ respond connection (wire w ++ [r1])%list r2 = Return response
    /\ content response = JSONText (VDict reply)
    /\ dict_get reply "uuid" = Some X
    /\ req_json r3 = Some (VDict body)
    /\ dict_get body "prototypeUuid" = Some X
    /\ stdout (snd (main connection w))
       = (stdout w
          ++ [line1; [Text "Created prototype: "; Str X]; line3; line4])%list.
Proof.
  unfold main. cbv zeta.
  set (client := __init__ connection omitted).
  rewrite io_bind_lift.
  replace (sent (health_check client) (wire w))
    with (wire w ++ [GET client "/health" None])%list
    by (one_request; reflexivity).
  destruct (outcome (health_check client) (wire w)) as [health|e];
    [|discriminate].
  rewrite io_bind_print. cbn [wire stdout]. rewrite io_bind_lift.
  cbn [wire stdout].
  match goal with
  | |- context [sent ?c ?h] =>
      replace (sent c h)
        with (h ++ [POST client "/api/prototypes"
                      (Some (VDict [("name", VStr "Person");
                                    ("description", VStr "A human individual");
                                    ("context", VNone);
                                    ("labels", VList [VStr "person"; VStr "human"]);
                                    ("embedding", VNone);
                                    ("parentPrototypeUuids", VNone)]))])%list
        by (one_request; reflexivity);
      destruct (outcome c h) as [proto_uuid|e] eqn:Eproto
  end; [|discriminate].
  unfold create_prototype in Eproto.
  apply outcome_request_field_inv in Eproto.
  destruct Eproto as (response & reply & Hr & _ & Hc & Hu).
  rewrite io_bind_print. cbn [wire stdout]. rewrite io_bind_lift.
  cbn [wire stdout]. rewrite sent_create_concept_dyn.
  match goal with
  | |- context [outcome ?c ?h] => destruct (outcome c h) as [concept_uuid|e]
  end; [|discriminate].
  rewrite io_bind_print. cbn [wire stdout]. rewrite io_bind_lift.
  cbn [wire stdout].
  match goal with
  | |- context [sent ?c ?h] =>
      replace (sent c h)
        with (h ++ [POST client "/api/concepts/search"
                      (Some (VDict [("query", VStr "person named John");
                                    ("topK", VInt 5);
                                    ("similarityThreshold", VFloat 0.7);
                                    ("prototypeFilter", VNone)]))])%list
        by (one_request; reflexivity);
      destruct (outcome c h) as [results|e]
  end; [|discriminate].
  intros Hend.
  assert (Hlen : exists count, len results = io_ret count).
  { destruct results; try discriminate; eexists; reflexivity. }
  destruct Hlen as [count Hlen]. rewrite Hlen.
  unfold io_bind, io_ret, print. cbn [fst snd wire stdout]. gather.
  do 4 eexists. exists response, reply, proto_uuid. do 4 eexists.
  split; [reflexivity|]. split; [exact Hr|]. split; [exact Hc|].
  split; [exact Hu|]. split; [reflexivity|]. split; reflexivity.
Qed.

Lemma main_passes_on_the_prototype_uuid_witness :
  exists r1 r2 r3 r4 response reply X body line1 line3 line4,
    wire (snd (main demo_service blank)) = [r1; r2; r3; r4]
    /\ respond demo_service [r1] r2 = Return response
    /\ content response = JSONText (VDict reply)
    /\ dict_get reply "uuid" = Some X
    /\ req_json r3 = Some (VDict body)
    /\ dict_get body "prototypeUuid" = Some X
    /\ stdout (snd (main demo_service blank))
       = [line1; [Text "Created prototype: "; Str X]; line3; line4].
Proof.
  apply (main_passes_on_the_prototype_uuid demo_service blank).
  reflexivity.
Defined.

(** ** No state between calls *)

(** X14: the client keeps nothing from one call to the next.  The request
    a call hands to the session is fixed by the call's arguments and the
    base URL alone: it is the same after any history of earlier requests
    and answers, and for any two clients with the same base URL, whatever
    their sessions. *)
Theorem request_depends_on_arguments_only (self other : KnowShowGoClient)
  (call : Call) (h h' : History) :
  base_url self = base_url other ->
  exists r,
    sent (invoke self call) h = (h ++ [r])%list
    /\ sent (invoke other call) h' = (h' ++ [r])%list.
Proof.
  intros Hb.
  destruct call; unfold_methods;
    rewrite ?sent_bind
      by (intros; first [apply subscript_sends_nothing | reflexivity]);
    rewrite !sent_request, Hb; eexists; split; reflexivity.
Qed.

Lemma request_depends_on_arguments_only_witness :
  exists r,
    sent (invoke (canned_client not_found) (GetConcept "c-1")) [] = [r]
    /\ sent (invoke (__init__ demo_service (given "http://localhost:3000/"))
               (GetConcept "c-1"))
         [mkRequest "GET" "http://localhost:3000/health" None None]
       = [mkRequest "GET" "http://localhost:3000/health" None None; r].
Proof.
  apply (request_depends_on_arguments_only (canned_client not_found)
           (__init__ demo_service (given "http://localhost:3000/"))
           (GetConcept "c-1") []
           [mkRequest "GET" "http://localhost:3000/health" None None]).
  reflexivity.
Defined.
